(** * Mock polygon generator: a shallow embedding of
      [src/data/generate_mock_polygons.py]

    The Python module draws a random centre and size, rejects candidates that
    would wrap around a pole or the dateline, rasterises an n-gon, a circle or
    an oval into a closed ring, and repeats this [count] times to build a
    GeoJSON feature collection.

    Modelling choices.
    - Python floats are kept abstract behind the interface [FloatOps]: every
      structural theorem holds for any implementation of the interface (IEEE
      doubles with the platform's [cos] and [sin] included).  The numeric
      theorems are stated on the instance [R_ops], which reads the arithmetic
      over the real numbers.
    - The process-wide [random] module is the interface [RandomSource]: an
      explicit generator state threaded through every draw.
    - Exceptions are the type [exn]; a computation is a function from the
      generator state to a [result] and the next generator state (the state
      survives a raised exception, as the global generator does).
    - A float division raises on a zero divisor.  The module divides by the
      literals [111.0], [2] and [64], by [sides] inside a loop that runs for
      a positive [sides] only, and by [111.0 * cos(...)]: the last one is the
      division that is kept fallible ([pydiv]). *)

From Stdlib Require Import List ZArith String Ascii Bool Arith Lia FinFun.
From Stdlib Require Import DecimalString.
From Stdlib Require Import Reals Lra.
Import ListNotations.

Set Implicit Arguments.

(** ** Python values *)

(** The float operations the module uses.  [of_int] is the conversion of a
    Python [int] (also used for the integer literals that meet a float);
    [lit_1_5] and [lit_0_7] are the literals [1.5] and [0.7]; [fis_zero]
    decides whether a divisor is zero, [fltb] is [<]. *)
Class FloatOps (F : Type) : Type := {
  of_int : Z -> F;
  lit_1_5 : F;
  lit_0_7 : F;
  math_pi : F;
  fadd : F -> F -> F;
  fsub : F -> F -> F;
  fmul : F -> F -> F;
  fdiv : F -> F -> F;
  fis_zero : F -> bool;
  fltb : F -> F -> bool;
  math_cos : F -> F;
  math_sin : F -> F
}.

Declare Scope py_scope.
Delimit Scope py_scope with py.
Infix "+" := fadd : py_scope.
Infix "-" := fsub : py_scope.
Infix "*" := fmul : py_scope.
Infix "/" := fdiv : py_scope.
Notation "a <? b" := (fltb a b) : py_scope.
Notation "a >? b" := (fltb b a) : py_scope.

(** The exceptions the module can raise: the [RuntimeError] of the attempt
    loop, the [IndexError] of [coordinates[0]] and of [random.choice] on an
    empty sequence, and the [ZeroDivisionError] of a float division. *)
Inductive exn : Type :=
| RuntimeError (msg : string)
| IndexError
| ZeroDivisionError.

Inductive result (A : Type) : Type :=
| Ok (a : A)
| Raise (e : exn).

Arguments Ok {A} a.
Arguments Raise {A} e.

(** [str(k)] for a Python int. *)
Definition str (k : Z) : string := NilZero.string_of_int (Z.to_int k).

(** [range(n)] and [range(lo, hi)]. *)
Definition range (n : Z) : list Z := map Z.of_nat (seq 0 (Z.to_nat n)).

Definition range2 (lo hi : Z) : list Z :=
  map (fun k => (lo + Z.of_nat k)%Z) (seq 0 (Z.to_nat (hi - lo))).

(** ** The random module *)

(** [rng_random] is [random.random()], [rng_randbelow n] is
    [random._randbelow(n)], which answers below [n] for a positive [n]. *)
Class RandomSource (F G : Type) : Type := {
  rng_random : G -> F * G;
  rng_randbelow : nat -> G -> nat * G;
  rng_randbelow_lt : forall n g, (0 < n)%nat -> (fst (rng_randbelow n g) < n)%nat
}.

(** ** Computations: generator state and exceptions *)

Definition M (G A : Type) : Type := G -> result A * G.

Definition ret {G A} (a : A) : M G A := fun g => (Ok a, g).

Definition raise {G A} (e : exn) : M G A := fun g => (Raise e, g).

Definition bind {G A B} (m : M G A) (k : A -> M G B) : M G B :=
  fun g =>
    match m g with
    | (Ok a, g') => k a g'
    | (Raise e, g') => (Raise e, g')
    end.

Definition lift {G A} (r : result A) : M G A := fun g => (r, g).

Declare Scope monad_scope.
Delimit Scope monad_scope with monad.
Notation "x <- m ;; k" := (bind m (fun x => k))
  (at level 61, m at next level, right associativity) : monad_scope.

(** A [for] loop whose body updates the loop state and may raise. *)
Fixpoint for_each {G A S} (l : list A) (body : A -> S -> M G S) (s : S) : M G S :=
  match l with
  | [] => ret s
  | i :: l' => bind (body i s) (for_each l' body)
  end.

Section Generator.

Context {F : Type} {FO : FloatOps F}.
Context {G : Type} {RS : RandomSource F G}.

Local Open Scope py_scope.
Local Open Scope monad_scope.

(** A coordinate pair [[lon, lat]]. *)
Definition point : Type := (F * F)%type.
Definition lon (p : point) : F := fst p.
Definition lat (p : point) : F := snd p.

(** [x / y] on floats: raises on a zero divisor. *)
Definition pydiv (x y : F) : result F :=
  if fis_zero y then Raise ZeroDivisionError else Ok (x / y).

(** [math.radians(x)], that is [x * (pi / 180)]. *)
Definition math_radians (x : F) : F := x * (math_pi / of_int 180).

(** [random.uniform(a, b)]: [a + (b - a) * random()]. *)
Definition random_uniform (a b : F) : M G F :=
  fun g => let (u, g') := rng_random g in (Ok (a + (b - a) * u), g').

(** [random.choice(seq)]: [IndexError] on an empty sequence, otherwise
    [seq[_randbelow(len(seq))]]. *)
Definition random_choice {A} (l : list A) : M G A :=
  fun g =>
    match l with
    | [] => (Raise IndexError, g)
    | _ :: _ =>
        let (k, g') := rng_randbelow (List.length l) g in
        match nth_error l k with
        | Some x => (Ok x, g')
        | None => (Raise IndexError, g')
        end
    end.

(** *** [_would_wrap] *)

Definition _would_wrap (center_lat center_lon lat_radius lon_radius : F) : bool :=
  if (center_lat + lat_radius >? of_int 85)
     || (center_lat - lat_radius <? of_int (-85))
  then true
  else if (center_lon + lon_radius >? of_int 180)
          || (center_lon - lon_radius <? of_int (-180))
  then true
  else false.

(** *** The rasterisers *)

(** [coordinates.append(coordinates[0])]. *)
Definition close_polygon (coordinates : list point) : result (list point) :=
  match coordinates with
  | [] => Raise IndexError
  | p0 :: _ => Ok (coordinates ++ [p0])
  end.

(** The body of the loop of [_create_ngon] at index [i]. *)
Definition ngon_point (center_lat center_lon lat_radius lon_radius : F)
    (sides i : Z) : point :=
  let angle := (of_int 2 * math_pi * of_int i) / of_int sides in
  let x := lon_radius * math_cos angle in
  let y := lat_radius * math_sin angle in
  let lat := center_lat + y in
  let lon := center_lon + x in
  (lon, lat).

Definition _create_ngon (center_lat center_lon lat_radius lon_radius : F)
    (sides : Z) : result (list point) :=
  let coordinates :=
    fold_left
      (fun coordinates i =>
         coordinates ++ [ngon_point center_lat center_lon lat_radius lon_radius sides i])
      (range sides) [] in
  close_polygon coordinates.

Definition num_points : Z := 64.

(** The body of the loop of [_create_circle] at index [i]. *)
Definition circle_point (center_lat center_lon lat_radius lon_radius : F)
    (i : Z) : point :=
  let angle := (of_int 2 * math_pi * of_int i) / of_int num_points in
  let avg_radius := (lat_radius + lon_radius) / of_int 2 in
  let x := avg_radius * math_cos angle in
  let y := avg_radius * math_sin angle in
  let lat := center_lat + y in
  let lon := center_lon + x in
  (lon, lat).

Definition _create_circle (center_lat center_lon lat_radius lon_radius : F)
    : result (list point) :=
  let coordinates :=
    fold_left
      (fun coordinates i =>
         coordinates ++ [circle_point center_lat center_lon lat_radius lon_radius i])
      (range num_points) [] in
  close_polygon coordinates.

(** The body of the loop of [_create_oval] at index [i], for the orientation
    drawn before the loop. *)
Definition oval_point (center_lat center_lon lat_radius lon_radius : F)
    (orientation : Z) (i : Z) : point :=
  let major_radius :=
    if (orientation =? 0)%Z then lon_radius * lit_1_5 else lat_radius * lit_1_5 in
  let minor_radius :=
    if (orientation =? 0)%Z then lat_radius * lit_0_7 else lon_radius * lit_0_7 in
  let angle := (of_int 2 * math_pi * of_int i) / of_int num_points in
  let x :=
    if (orientation =? 0)%Z then major_radius * math_cos angle
    else minor_radius * math_cos angle in
  let y :=
    if (orientation =? 0)%Z then minor_radius * math_sin angle
    else major_radius * math_sin angle in
  let lat := center_lat + y in
  let lon := center_lon + x in
  (lon, lat).

Definition _create_oval (center_lat center_lon lat_radius lon_radius : F)
    : M G (list point) :=
  orientation <- random_choice [0%Z; 1%Z] ;;
  let coordinates :=
    fold_left
      (fun coordinates i =>
         coordinates ++
           [oval_point center_lat center_lon lat_radius lon_radius orientation i])
      (range num_points) [] in
  lift (close_polygon coordinates).

(** *** [generate_random_polygon] *)

(** The entries of [shape_types]: [('ngon', k)], [('circle', None)] and
    [('oval', None)]. *)
Inductive shape_choice : Type :=
| ngon (num_vertices : Z)
| circle
| oval.

(** The list [shape_types] built on every attempt. *)
Definition shape_types (min_vertices max_vertices : Z)
    (include_circles include_ovals : bool) : list shape_choice :=
  let shape_types :=
    fold_left (fun shape_types num_vertices => shape_types ++ [ngon num_vertices])
      (range2 min_vertices (max_vertices + 1)) [] in
  let shape_types := if include_circles then shape_types ++ [circle] else shape_types in
  let shape_types := if include_ovals then shape_types ++ [oval] else shape_types in
  shape_types.

(** The candidate drawn at the head of an attempt: centre and radii. *)
Record candidate : Type := {
  center_lat : F;
  center_lon : F;
  lat_radius_deg : F;
  lon_radius_deg : F
}.

Definition sample_candidate (min_size_km max_size_km : F) : M G candidate :=
  center_lat <- random_uniform (of_int (-85)) (of_int 85) ;;
  center_lon <- random_uniform (of_int (-180)) (of_int 180) ;;
  size_km <- random_uniform min_size_km max_size_km ;;
  let lat_radius_deg := size_km / of_int 111 in
  lon_radius_deg <-
    lift (pydiv size_km (of_int 111 * math_cos (math_radians center_lat))) ;;
  ret {| center_lat := center_lat; center_lon := center_lon;
         lat_radius_deg := lat_radius_deg; lon_radius_deg := lon_radius_deg |}.

Definition would_wrap (c : candidate) : bool :=
  _would_wrap (center_lat c) (center_lon c) (lat_radius_deg c) (lon_radius_deg c).

(** What an attempt does with a candidate that does not wrap: choose the shape,
    rasterise it and return [([coordinates], shape_type)]. *)
Definition rasterize (min_vertices max_vertices : Z)
    (include_circles include_ovals : bool) (c : candidate)
    : M G (list (list point) * string) :=
  shape_choice <-
    random_choice (shape_types min_vertices max_vertices include_circles include_ovals) ;;
  match shape_choice with
  | ngon shape_param =>
      coordinates <-
        lift (_create_ngon (center_lat c) (center_lon c) (lat_radius_deg c)
                (lon_radius_deg c) shape_param) ;;
      ret ([coordinates], (str shape_param ++ "-gon")%string)
  | circle =>
      coordinates <-
        lift (_create_circle (center_lat c) (center_lon c) (lat_radius_deg c)
                (lon_radius_deg c)) ;;
      ret ([coordinates], "circle"%string)
  | oval =>
      coordinates <-
        _create_oval (center_lat c) (center_lon c) (lat_radius_deg c)
          (lon_radius_deg c) ;;
      ret ([coordinates], "oval"%string)
  end.

Definition max_attempts : nat := 100.

Definition exhausted : exn :=
  RuntimeError "Could not generate valid polygon after 100 attempts"%string.

(** The loop [for attempt in range(max_attempts)] with [attempts] iterations
    left: [continue] goes to the next iteration, falling out of the loop
    raises. *)
Fixpoint attempt_loop (attempts : nat) (min_size_km max_size_km : F)
    (min_vertices max_vertices : Z) (include_circles include_ovals : bool)
    : M G (list (list point) * string) :=
  match attempts with
  | O => raise exhausted
  | S attempts' =>
      c <- sample_candidate min_size_km max_size_km ;;
      if would_wrap c
      then attempt_loop attempts' min_size_km max_size_km min_vertices max_vertices
             include_circles include_ovals
      else rasterize min_vertices max_vertices include_circles include_ovals c
  end.

Definition generate_random_polygon (min_size_km max_size_km : F)
    (min_vertices max_vertices : Z) (include_circles include_ovals : bool)
    : M G (list (list point) * string) :=
  attempt_loop max_attempts min_size_km max_size_km min_vertices max_vertices
    include_circles include_ovals.

(** *** [generate_mock_polygons] *)

(** A feature: the ring list of its polygon geometry and its two properties. *)
Record Feature : Type := {
  coordinates : list (list point);
  id : Z;
  shape : string
}.

Record FeatureCollection : Type := {
  features : list Feature
}.

Definition generate_mock_polygons (count : Z) (min_size_km max_size_km : F)
    (min_vertices max_vertices : Z) (include_circles include_ovals : bool)
    : M G FeatureCollection :=
  features <-
    for_each (range count)
      (fun i features =>
         r <- generate_random_polygon min_size_km max_size_km min_vertices
                max_vertices include_circles include_ovals ;;
         let feature :=
           {| coordinates := fst r; id := (i + 1)%Z; shape := snd r |} in
         ret (features ++ [feature]))
      [] ;;
  ret {| features := features |}.

End Generator.

(** ** Reading the generator's behaviour *)

Section Readings.

Context {F : Type} {FO : FloatOps F}.
Context {G : Type} {RS : RandomSource F G}.

(** [ring[0] == ring[-1]] on a ring that has a first point. *)
Definition closed_ring (ring : list (@point F)) : Prop :=
  exists p,
    nth_error ring 0 = Some p /\ nth_error ring (List.length ring - 1) = Some p.

(** The generator state after [n] attempts in a row whose candidate was drawn
    and rejected by the wrap check; [None] when one of them was not. *)
Fixpoint after_rejections (n : nat) (min_size_km max_size_km : F) (g : G)
    : option G :=
  match n with
  | O => Some g
  | S n' =>
      match sample_candidate min_size_km max_size_km g with
      | (Ok c, g') =>
          if would_wrap c then after_rejections n' min_size_km max_size_km g'
          else None
      | (Raise _, _) => None
      end
  end.

(** [n] calls of [generate_random_polygon] in a row: their results in call
    order, or the exception of the first call that raises. *)
Fixpoint polygons (n : nat) (min_size_km max_size_km : F)
    (min_vertices max_vertices : Z) (include_circles include_ovals : bool)
    : M G (list (list (list (@point F)) * string)) :=
  match n with
  | O => ret []
  | S n' =>
      bind (generate_random_polygon min_size_km max_size_km min_vertices
              max_vertices include_circles include_ovals)
        (fun r =>
           bind (polygons n' min_size_km max_size_km min_vertices max_vertices
                   include_circles include_ovals)
             (fun rs => ret (r :: rs)))
  end.

(** The features made of a list of results, numbered from [first]. *)
Fixpoint number_features (first : Z) (rs : list (list (list (@point F)) * string))
    : list (@Feature F) :=
  match rs with
  | [] => []
  | r :: rs' =>
      {| coordinates := fst r; id := first; shape := snd r |}
        :: number_features (first + 1) rs'
  end.

(** Every vertex of every ring of a feature satisfies [P]. *)
Definition all_vertices (P : @point F -> Prop) (f : @Feature F) : Prop :=
  forall ring p, In ring (coordinates f) -> In p ring -> P p.

End Readings.

(** Two generator states, possibly of two implementations of the random
    module, that deliver the same stream of draws: a relation kept by every
    draw, along which the drawn values agree. *)
Definition same_draws {F G1 G2 : Type} {RS1 : RandomSource F G1}
    {RS2 : RandomSource F G2} (rel : G1 -> G2 -> Prop) : Prop :=
  forall g1 g2, rel g1 g2 ->
    (fst (rng_random g1) = fst (rng_random g2)
     /\ rel (snd (rng_random g1)) (snd (rng_random g2)))
    /\ (forall n,
          fst (rng_randbelow n g1) = fst (rng_randbelow n g2)
          /\ rel (snd (rng_randbelow n g1)) (snd (rng_randbelow n g2))).

(** Two computations, each on its own generator, that agree along [rel]:
    from related states they give the same result and related states. *)
Definition agree {G1 G2 A : Type} (rel : G1 -> G2 -> Prop)
    (m1 : M G1 A) (m2 : M G2 A) : Prop :=
  forall g1 g2, rel g1 g2 ->
    fst (m1 g1) = fst (m2 g2) /\ rel (snd (m1 g1)) (snd (m2 g2)).

(** ** Real arithmetic *)

(** The float interface read over the real numbers: exact arithmetic, the
    real [cos], [sin] and [PI]. *)
#[export] Instance R_ops : FloatOps R := {|
  of_int := IZR;
  lit_1_5 := (15 / 10)%R;
  lit_0_7 := (7 / 10)%R;
  math_pi := PI;
  fadd := Rplus;
  fsub := Rminus;
  fmul := Rmult;
  fdiv := Rdiv;
  fis_zero := fun x => if Req_dec_T x 0%R then true else false;
  fltb := fun x y => if Rlt_dec x y then true else false;
  math_cos := cos;
  math_sin := sin
|}.

(** [random()] answers in the half-open unit interval. *)
Definition unit_interval_source (G : Type) {RS : RandomSource R G} : Prop :=
  forall g : G, (0 <= fst (rng_random g) < 1)%R.

Arguments unit_interval_source G {RS}.

(** A vertex inside the closed pole and dateline bounds. *)
Definition within_bounds (p : @point R) : Prop :=
  (-85 <= lat p <= 85)%R /\ (-180 <= lon p <= 180)%R.

(** A vertex strictly inside the pole and dateline bounds. *)
Definition strictly_within_bounds (p : @point R) : Prop :=
  (-85 < lat p < 85)%R /\ (-180 < lon p < 180)%R.

(** ** A scripted random module *)

(** A generator that replays a script: [random()] delivers the next 53-bit
    numerator over [2^53], [_randbelow(n)] the next index reduced below [n];
    an exhausted script delivers zero. *)
Record script : Type := {
  numerators : list Z;
  indices : list nat
}.

Definition two53 : Z := 9007199254740992.

(** The draw of numerator [z]. *)
Definition draw (z : Z) : R := (IZR (z mod two53) / IZR two53)%R.

Definition script_random (s : script) : R * script :=
  match numerators s with
  | [] => (0%R, s)
  | z :: zs => (draw z, {| numerators := zs; indices := indices s |})
  end.

Definition script_randbelow (n : nat) (s : script) : nat * script :=
  match indices s with
  | [] => (0%nat, s)
  | k :: ks => ((k mod n)%nat, {| numerators := numerators s; indices := ks |})
  end.

Lemma script_randbelow_lt (n : nat) (s : script) :
  (0 < n)%nat -> (fst (script_randbelow n s) < n)%nat.
Proof.
  intros Hn. unfold script_randbelow.
  destruct (indices s) as [|k ks]; simpl; [exact Hn|].
  apply Nat.mod_upper_bound. lia.
Qed.

#[export] Instance script_source : RandomSource R script := {|
  rng_random := script_random;
  rng_randbelow := script_randbelow;
  rng_randbelow_lt := script_randbelow_lt
|}.

(** A generator whose every draw is zero; an exhausted script behaves like
    it. *)
#[export] Instance zero_source : RandomSource R unit := {|
  rng_random := fun _ => (0%R, tt);
  rng_randbelow := fun _ _ => (0%nat, tt);
  rng_randbelow_lt := fun n _ (H : (0 < n)%nat) => H
|}.

Definition exhausted_script (s : script) (u : unit) : Prop :=
  numerators s = [] /\ indices s = [].

(** The numerator of the draw [1/2] and of the draw [3/4]. *)
Definition half : Z := 4503599627370496.
Definition three_quarters : Z := 6755399441055744.

(** The scripts of three runs: every draw [1/2] and the first shape choice;
    every draw [1/2], the third shape choice and the second orientation; a
    first draw [3/4] and the second shape choice. *)
Definition script_ngon : script :=
  {| numerators := [half; half; half]; indices := [0%nat] |}.

Definition script_oval : script :=
  {| numerators := [half; half; half]; indices := [2%nat; 1%nat] |}.

Definition script_circle : script :=
  {| numerators := [three_quarters; half; half]; indices := [1%nat] |}.

Definition script_empty : script := {| numerators := []; indices := [] |}.

(** * Facts about the Python values *)

Section ListFacts.

Variables A B : Type.

Lemma fold_left_append_map (f : A -> B) (l : list A) (init : list B) :
  fold_left (fun acc i => acc ++ [f i]) l init = init ++ map f l.
Proof.
  revert init; induction l as [|a l IH]; intros init; simpl.
  - now rewrite app_nil_r.
  - rewrite IH, <- app_assoc. reflexivity.
Qed.

Lemma nth_error_last (l : list A) (a : A) :
  nth_error (l ++ [a]) (List.length l) = Some a.
Proof.
  rewrite nth_error_app2 by lia. now rewrite Nat.sub_diag.
Qed.

End ListFacts.

Lemma range_length (n : Z) : List.length (range n) = Z.to_nat n.
Proof. unfold range. now rewrite length_map, length_seq. Qed.

Lemma range_nth_error (n : Z) (i : nat) :
  (i < Z.to_nat n)%nat -> nth_error (range n) i = Some (Z.of_nat i).
Proof.
  intros Hi. unfold range.
  rewrite nth_error_map, nth_error_seq.
  destruct (Nat.ltb_spec i (Z.to_nat n)); [reflexivity | lia].
Qed.

Lemma range_nonpos (n : Z) : (n <= 0)%Z -> range n = [].
Proof.
  intros Hn. unfold range.
  replace (Z.to_nat n) with 0%nat by lia. reflexivity.
Qed.

Lemma range_pos_cons (n : Z) :
  (0 < n)%Z -> exists l, range n = 0%Z :: l.
Proof.
  intros Hn. unfold range.
  destruct (Z.to_nat n) as [|m] eqn:E; [lia|].
  simpl. eauto.
Qed.

Lemma range2_In (lo hi k : Z) :
  In k (range2 lo hi) <-> (lo <= k < hi)%Z.
Proof.
  unfold range2. rewrite in_map_iff. split.
  - intros (j & <- & Hj). apply in_seq in Hj. lia.
  - intros Hk. exists (Z.to_nat (k - lo)). split; [lia|].
    apply in_seq. lia.
Qed.

Lemma range2_NoDup (lo hi : Z) : NoDup (range2 lo hi).
Proof.
  unfold range2. apply Injective_map_NoDup.
  - intros a b H. lia.
  - apply seq_NoDup.
Qed.


Lemma Ok_inj (A : Type) (a b : A) : Ok a = Ok b -> a = b.
Proof. intros H. now injection H. Qed.

(** * Facts about the rasterisers *)

Section RasterFacts.

Context {F : Type} {FO : FloatOps F}.
Context {G : Type} {RS : RandomSource F G}.

(** The ring a rasteriser loop of [n] points builds and closes. *)
Lemma close_polygon_loop (pt : Z -> @point F) (n : Z) :
  (0 < n)%Z ->
  close_polygon (fold_left (fun acc i => acc ++ [pt i]) (range n) [])
  = Ok (map pt (range n) ++ [pt 0%Z]).
Proof.
  intros Hn. rewrite fold_left_append_map. simpl.
  destruct (range_pos_cons Hn) as (l & ->). reflexivity.
Qed.

Lemma close_polygon_loop_empty (pt : Z -> @point F) (n : Z) :
  (n <= 0)%Z ->
  close_polygon (fold_left (fun acc i => acc ++ [pt i]) (range n) [])
  = Raise IndexError.
Proof.
  intros Hn. now rewrite (range_nonpos Hn).
Qed.

Lemma loop_ring_length (pt : Z -> @point F) (n : Z) :
  List.length (map pt (range n) ++ [pt 0%Z]) = (Z.to_nat n + 1)%nat.
Proof.
  rewrite length_app, length_map, range_length. reflexivity.
Qed.

Lemma loop_ring_nth (pt : Z -> @point F) (n : Z) (i : nat) :
  (i < Z.to_nat n)%nat ->
  nth_error (map pt (range n) ++ [pt 0%Z]) i = Some (pt (Z.of_nat i)).
Proof.
  intros Hi.
  rewrite nth_error_app1 by (now rewrite length_map, range_length).
  rewrite nth_error_map, range_nth_error by exact Hi. reflexivity.
Qed.

Lemma loop_ring_last (pt : Z -> @point F) (n : Z) :
  nth_error (map pt (range n) ++ [pt 0%Z]) (Z.to_nat n) = Some (pt 0%Z).
Proof.
  rewrite <- (range_length n), <- (length_map pt). apply nth_error_last.
Qed.

Lemma loop_ring_closed (pt : Z -> @point F) (n : Z) :
  (0 < n)%Z -> closed_ring (map pt (range n) ++ [pt 0%Z]).
Proof.
  intros Hn. exists (pt 0%Z). split.
  - rewrite (@loop_ring_nth pt n 0) by lia. reflexivity.
  - rewrite loop_ring_length.
    replace (Z.to_nat n + 1 - 1)%nat with (Z.to_nat n) by lia.
    apply loop_ring_last.
Qed.

Lemma loop_ring_In (pt : Z -> @point F) (n : Z) (p : @point F) :
  In p (map pt (range n) ++ [pt 0%Z]) -> exists i, p = pt i.
Proof.
  rewrite in_app_iff, in_map_iff. intros [(i & <- & _) | [<- | []]]; eauto.
Qed.

Lemma _create_ngon_ok (center_lat center_lon lat_radius lon_radius : F) (sides : Z) :
  (0 < sides)%Z ->
  _create_ngon center_lat center_lon lat_radius lon_radius sides
  = Ok (map (ngon_point center_lat center_lon lat_radius lon_radius sides) (range sides)
        ++ [ngon_point center_lat center_lon lat_radius lon_radius sides 0]).
Proof.
  intros Hs. unfold _create_ngon. now apply close_polygon_loop.
Qed.

Lemma _create_ngon_raises (center_lat center_lon lat_radius lon_radius : F) (sides : Z) :
  (sides <= 0)%Z ->
  _create_ngon center_lat center_lon lat_radius lon_radius sides = Raise IndexError.
Proof.
  intros Hs. unfold _create_ngon. now apply close_polygon_loop_empty.
Qed.

Lemma _create_circle_ok (center_lat center_lon lat_radius lon_radius : F) :
  _create_circle center_lat center_lon lat_radius lon_radius
  = Ok (map (circle_point center_lat center_lon lat_radius lon_radius) (range num_points)
        ++ [circle_point center_lat center_lon lat_radius lon_radius 0]).
Proof.
  unfold _create_circle. now apply close_polygon_loop.
Qed.

(** [random.choice] on a sequence that is not empty returns one of its
    elements. *)
Lemma random_choice_ok (A : Type) (l : list A) (g : G) :
  l <> [] ->
  exists x g', random_choice l g = (Ok x, g') /\ In x l.
Proof.
  intros Hl. unfold random_choice.
  destruct l as [|a l']; [congruence|].
  pose proof (@rng_randbelow_lt F G RS (List.length (a :: l')) g) as Hlt.
  destruct (rng_randbelow (List.length (a :: l')) g) as [k g'] eqn:E.
  simpl fst in Hlt.
  destruct (nth_error (a :: l') k) as [x|] eqn:Ex.
  - exists x, g'. split; [reflexivity|]. eapply nth_error_In; eauto.
  - apply nth_error_None in Ex. simpl in Hlt, Ex. lia.
Qed.

Lemma random_choice_In (A : Type) (l : list A) (g g' : G) (x : A) :
  random_choice l g = (Ok x, g') -> In x l.
Proof.
  unfold random_choice. destruct l as [|a l']; [discriminate|].
  destruct (rng_randbelow (List.length (a :: l')) g) as [k g''].
  destruct (nth_error (a :: l') k) as [y|] eqn:Ey; [|discriminate].
  intros H. injection H as -> _. eapply nth_error_In; eauto.
Qed.

Lemma _create_oval_ok (center_lat center_lon lat_radius lon_radius : F) (g : G) :
  exists orientation g',
    (orientation = 0%Z \/ orientation = 1%Z)
    /\ random_choice [0%Z; 1%Z] g = (Ok orientation, g')
    /\ _create_oval center_lat center_lon lat_radius lon_radius g
       = (Ok (map (oval_point center_lat center_lon lat_radius lon_radius orientation)
                (range num_points)
              ++ [oval_point center_lat center_lon lat_radius lon_radius orientation 0]),
          g').
Proof.
  destruct (@random_choice_ok Z [0%Z; 1%Z] g) as (o & g' & Hc & Hin); [discriminate|].
  exists o, g'. split; [|split].
  - simpl in Hin. intuition congruence.
  - exact Hc.
  - unfold _create_oval, bind. rewrite Hc. unfold lift.
    now rewrite close_polygon_loop.
Qed.

Lemma _create_oval_inv (center_lat center_lon lat_radius lon_radius : F) (g g' : G)
    (ring : list (@point F)) :
  _create_oval center_lat center_lon lat_radius lon_radius g = (Ok ring, g') ->
  exists orientation,
    (orientation = 0%Z \/ orientation = 1%Z)
    /\ ring
       = map (oval_point center_lat center_lon lat_radius lon_radius orientation)
           (range num_points)
         ++ [oval_point center_lat center_lon lat_radius lon_radius orientation 0].
Proof.
  intros H.
  destruct (_create_oval_ok center_lat center_lon lat_radius lon_radius g)
    as (o & g'' & Ho & _ & E).
  rewrite E in H. apply pair_equal_spec in H. destruct H as [H _].
  apply Ok_inj in H. subst ring. eauto.
Qed.

End RasterFacts.

(** * Facts about the generator *)

Lemma shape_types_eq (min_vertices max_vertices : Z)
    (include_circles include_ovals : bool) :
  shape_types min_vertices max_vertices include_circles include_ovals
  = map ngon (range2 min_vertices (max_vertices + 1))
    ++ (if include_circles then [circle] else [])
    ++ (if include_ovals then [oval] else []).
Proof.
  unfold shape_types. rewrite fold_left_append_map. simpl.
  destruct include_circles, include_ovals; simpl;
    rewrite ?app_nil_r, <- ?app_assoc; reflexivity.
Qed.

Lemma shape_types_ngon (min_vertices max_vertices : Z)
    (include_circles include_ovals : bool) (k : Z) :
  In (ngon k) (shape_types min_vertices max_vertices include_circles include_ovals)
  <-> (min_vertices <= k <= max_vertices)%Z.
Proof.
  rewrite shape_types_eq, !in_app_iff, in_map_iff. split.
  - intros [(j & Hj & Hin) | [H | H]].
    + injection Hj as ->. apply range2_In in Hin. lia.
    + destruct include_circles; simpl in H; intuition discriminate.
    + destruct include_ovals; simpl in H; intuition discriminate.
  - intros Hk. left. exists k. split; [reflexivity|]. apply range2_In. lia.
Qed.

Lemma shape_types_circle (min_vertices max_vertices : Z)
    (include_circles include_ovals : bool) :
  In circle (shape_types min_vertices max_vertices include_circles include_ovals)
  -> include_circles = true.
Proof.
  rewrite shape_types_eq, !in_app_iff, in_map_iff.
  intros [(j & Hj & _) | [H | H]]; [discriminate| |].
  - destruct include_circles; [reflexivity | destruct H].
  - destruct include_ovals; simpl in H; intuition discriminate.
Qed.

Lemma shape_types_oval (min_vertices max_vertices : Z)
    (include_circles include_ovals : bool) :
  In oval (shape_types min_vertices max_vertices include_circles include_ovals)
  -> include_ovals = true.
Proof.
  rewrite shape_types_eq, !in_app_iff, in_map_iff.
  intros [(j & Hj & _) | [H | H]]; [discriminate| |].
  - destruct include_circles; simpl in H; intuition discriminate.
  - destruct include_ovals; [reflexivity | destruct H].
Qed.

Section GeneratorFacts.

Context {F : Type} {FO : FloatOps F}.
Context {G : Type} {RS : RandomSource F G}.

Variables (min_size_km max_size_km : F).
Variables (min_vertices max_vertices : Z).
Variables (include_circles include_ovals : bool).

(** A result of [rasterize] is one ring: an n-gon of a listed vertex count, a
    circle when circles are enabled or an oval when ovals are enabled. *)
Lemma rasterize_inv (c : @candidate F) (g g' : G)
    (rings : list (list (@point F))) (shp : string) :
  rasterize min_vertices max_vertices include_circles include_ovals c g
  = (Ok (rings, shp), g') ->
  exists ring,
    rings = [ring]
    /\ ((exists k,
           (min_vertices <= k <= max_vertices)%Z
           /\ _create_ngon (center_lat c) (center_lon c) (lat_radius_deg c)
                (lon_radius_deg c) k = Ok ring
           /\ shp = (str k ++ "-gon")%string)
        \/ (include_circles = true
            /\ _create_circle (center_lat c) (center_lon c) (lat_radius_deg c)
                 (lon_radius_deg c) = Ok ring
            /\ shp = "circle"%string)
        \/ (include_ovals = true
            /\ (exists g1 g2,
                  _create_oval (center_lat c) (center_lon c) (lat_radius_deg c)
                    (lon_radius_deg c) g1 = (Ok ring, g2))
            /\ shp = "oval"%string)).
Proof.
  unfold rasterize, bind.
  destruct (random_choice _ g) as [[ch|e] g1] eqn:Ech; [|discriminate].
  apply random_choice_In in Ech.
  destruct ch as [k| |].
  - unfold lift at 1.
    destruct (_create_ngon _ _ _ _ k) as [ring|e] eqn:En; [|discriminate].
    unfold ret. intros H. injection H as <- <- _.
    exists ring. split; [reflexivity|]. left. exists k.
    apply shape_types_ngon in Ech. auto.
  - unfold lift at 1.
    destruct (_create_circle _ _ _ _) as [ring|e] eqn:En; [|discriminate].
    unfold ret. intros H. injection H as <- <- _.
    exists ring. split; [reflexivity|]. right; left.
    apply shape_types_circle in Ech. auto.
  - destruct (_create_oval _ _ _ _ g1) as [[ring|e] g2] eqn:En; [|discriminate].
    unfold ret. intros H. injection H as <- <- _.
    exists ring. split; [reflexivity|]. right; right.
    apply shape_types_oval in Ech. eauto.
Qed.

(** The attempt loop, read against the candidates it draws: it returns what
    [rasterize] makes of the first candidate that does not wrap, raises what
    drawing a candidate raises, or is exhausted after [n] rejections. *)
Lemma attempt_loop_cases (n : nat) (g : G) :
  (exists j gj c g1,
      (j < n)%nat
      /\ after_rejections j min_size_km max_size_km g = Some gj
      /\ sample_candidate min_size_km max_size_km gj = (Ok c, g1)
      /\ would_wrap c = false
      /\ attempt_loop n min_size_km max_size_km min_vertices max_vertices
           include_circles include_ovals g
         = rasterize min_vertices max_vertices include_circles include_ovals c g1)
  \/ (exists j gj e g1,
        (j < n)%nat
        /\ after_rejections j min_size_km max_size_km g = Some gj
        /\ sample_candidate min_size_km max_size_km gj = (Raise e, g1)
        /\ attempt_loop n min_size_km max_size_km min_vertices max_vertices
             include_circles include_ovals g
           = (Raise e, g1))
  \/ (exists gn,
        after_rejections n min_size_km max_size_km g = Some gn
        /\ attempt_loop n min_size_km max_size_km min_vertices max_vertices
             include_circles include_ovals g
           = (Raise exhausted, gn)).
Proof.
  revert g. induction n as [|n IH]; intros g.
  - right; right. exists g. split; reflexivity.
  - cbn [attempt_loop after_rejections]. unfold bind.
    destruct (sample_candidate min_size_km max_size_km g) as [[c|e] g1] eqn:Es.
    + destruct (would_wrap c) eqn:Ew.
      * destruct (IH g1) as [(j & gj & c' & g2 & Hj & Ha & Hs & Hw & Hr)
                            | [(j & gj & e & g2 & Hj & Ha & Hs & Hr)
                              | (gn & Ha & Hr)]].
        -- left. exists (S j), gj, c', g2.
           cbn [after_rejections]. rewrite Es, Ew.
           split; [lia|]. auto.
        -- right; left. exists (S j), gj, e, g2.
           cbn [after_rejections]. rewrite Es, Ew.
           split; [lia|]. auto.
        -- right; right. exists gn. auto.
      * left. exists 0%nat, g, c, g1.
        split; [lia|]. auto.
    + right; left. exists 0%nat, g, e, g1.
      split; [lia|]. auto.
Qed.

(** A polygon that is returned comes from a drawn candidate that passed the
    wrap check. *)
Lemma generate_random_polygon_inv (g g' : G)
    (r : list (list (@point F)) * string) :
  generate_random_polygon min_size_km max_size_km min_vertices max_vertices
    include_circles include_ovals g = (Ok r, g') ->
  exists gj c g1,
    sample_candidate min_size_km max_size_km gj = (Ok c, g1)
    /\ would_wrap c = false
    /\ rasterize min_vertices max_vertices include_circles include_ovals c g1
       = (Ok r, g').
Proof.
  unfold generate_random_polygon. intros H.
  destruct (attempt_loop_cases max_attempts g)
    as [(j & gj & c & g1 & _ & _ & Hs & Hw & Hr)
       | [(j & gj & e & g1 & _ & _ & _ & Hr) | (gn & _ & Hr)]];
    rewrite Hr in H; try discriminate.
  exists gj, c, g1. auto.
Qed.

(** The batch loop is [polygons] followed by the numbering of the results. *)
Lemma batch_loop_polygons (n a : nat) (acc : list (@Feature F)) (g : G) :
  for_each (map Z.of_nat (seq a n))
    (fun i features =>
       bind (generate_random_polygon min_size_km max_size_km min_vertices
               max_vertices include_circles include_ovals)
         (fun r =>
            ret (features
                 ++ [{| coordinates := fst r; id := (i + 1)%Z; shape := snd r |}])))
    acc g
  = match polygons n min_size_km max_size_km min_vertices max_vertices
            include_circles include_ovals g with
    | (Ok rs, g') => (Ok (acc ++ number_features (Z.of_nat a + 1) rs), g')
    | (Raise e, g') => (Raise e, g')
    end.
Proof.
  revert a acc g. induction n as [|n IH]; intros a acc g.
  - simpl. unfold ret. now rewrite app_nil_r.
  - cbn [seq map for_each polygons]. unfold bind at 1 2 4.
    destruct (generate_random_polygon _ _ _ _ _ _ g) as [[r|e] g1]; [|reflexivity].
    unfold ret at 1. rewrite IH. unfold bind.
    destruct (polygons n _ _ _ _ _ _ g1) as [[rs|e] g2]; [|reflexivity].
    unfold ret. cbn [number_features fst snd].
    replace (Z.of_nat (S a) + 1)%Z with (Z.of_nat a + 1 + 1)%Z by lia.
    rewrite <- app_assoc. reflexivity.
Qed.

Lemma generate_mock_polygons_polygons (count : Z) (g : G) :
  generate_mock_polygons count min_size_km max_size_km min_vertices max_vertices
    include_circles include_ovals g
  = match polygons (Z.to_nat count) min_size_km max_size_km min_vertices
            max_vertices include_circles include_ovals g with
    | (Ok rs, g') => (Ok {| features := number_features 1 rs |}, g')
    | (Raise e, g') => (Raise e, g')
    end.
Proof.
  unfold generate_mock_polygons, range. unfold bind at 1.
  rewrite batch_loop_polygons.
  destruct (polygons _ _ _ _ _ _ _ g) as [[rs|e] g']; reflexivity.
Qed.

Lemma polygons_length (n : nat) (g g' : G)
    (rs : list (list (list (@point F)) * string)) :
  polygons n min_size_km max_size_km min_vertices max_vertices include_circles
    include_ovals g = (Ok rs, g') ->
  List.length rs = n.
Proof.
  revert g rs. induction n as [|n IH]; intros g rs; cbn [polygons].
  - unfold ret. intros H. injection H as <- _. reflexivity.
  - unfold bind.
    destruct (generate_random_polygon _ _ _ _ _ _ g) as [[r|e] g1]; [|discriminate].
    destruct (polygons n _ _ _ _ _ _ g1) as [[rs'|e] g2] eqn:E; [|discriminate].
    unfold ret. intros H. injection H as <- <-. simpl. f_equal. eauto.
Qed.

(** Every result of [polygons] is a result of one call. *)
Lemma polygons_In (n : nat) (g g' : G)
    (rs : list (list (list (@point F)) * string))
    (r : list (list (@point F)) * string) :
  polygons n min_size_km max_size_km min_vertices max_vertices include_circles
    include_ovals g = (Ok rs, g') ->
  In r rs ->
  exists g1 g2,
    generate_random_polygon min_size_km max_size_km min_vertices max_vertices
      include_circles include_ovals g1 = (Ok r, g2).
Proof.
  revert g rs. induction n as [|n IH]; intros g rs; cbn [polygons].
  - unfold ret. intros H. injection H as <- _. intros [].
  - unfold bind.
    destruct (generate_random_polygon _ _ _ _ _ _ g) as [[r0|e] g1] eqn:E0;
      [|discriminate].
    destruct (polygons n _ _ _ _ _ _ g1) as [[rs'|e] g2] eqn:E; [|discriminate].
    unfold ret. intros H. injection H as <- <-. intros [<- | Hin]; eauto.
Qed.

End GeneratorFacts.

Section NumberingFacts.

Context {F : Type}.

Lemma number_features_length (first : Z)
    (rs : list (list (list (@point F)) * string)) :
  List.length (number_features first rs) = List.length rs.
Proof.
  revert first. induction rs as [|r rs IH]; intros first; simpl; auto.
Qed.

Lemma number_features_ids (first : Z)
    (rs : list (list (list (@point F)) * string)) :
  map (@id F) (number_features first rs)
  = map (fun k => (first + Z.of_nat k)%Z) (seq 0 (List.length rs)).
Proof.
  revert first. induction rs as [|r rs IH]; intros first; simpl; [reflexivity|].
  rewrite IH, <- seq_shift, map_map. f_equal.
  - lia.
  - apply map_ext. intros k. lia.
Qed.

Lemma number_features_In (first : Z)
    (rs : list (list (list (@point F)) * string)) (f : @Feature F) :
  In f (number_features first rs) ->
  In (coordinates f, shape f) rs.
Proof.
  revert first. induction rs as [|r rs IH]; intros first; simpl; [auto|].
  intros [<- | Hin].
  - left. simpl. now destruct r.
  - right. eauto.
Qed.

End NumberingFacts.

(** * Shape descriptors *)

Lemma string_length_append (s t : string) :
  String.length (s ++ t) = (String.length s + String.length t)%nat.
Proof. induction s as [|a s IH]; simpl; auto. Qed.

(** A descriptor ["<k>-gon"] is neither ["circle"] nor ["oval"]. *)
Lemma gon_not_circle (s : string) : (s ++ "-gon")%string <> "circle"%string.
Proof.
  intros H. pose proof (f_equal String.length H) as L.
  rewrite string_length_append in L. simpl in L.
  destruct s as [|a [|b [|c s]]]; simpl in L; try lia.
  simpl in H. discriminate H.
Qed.

Lemma gon_not_oval (s : string) : (s ++ "-gon")%string <> "oval"%string.
Proof.
  intros H. pose proof (f_equal String.length H) as L.
  rewrite string_length_append in L. simpl in L.
  destruct s as [|a s]; simpl in L; try lia.
  simpl in H. discriminate H.
Qed.

(** * The structure of rings, batches and errors *)

Section Structure.

Context {F : Type} {FO : FloatOps F}.
Context {G : Type} {RS : RandomSource F G}.

Local Open Scope py_scope.

(** C5. Every ring that one of the three rasterisers returns is closed: its
    first point and its last point are the same point. *)
Theorem rings_are_closed (center_lat center_lon lat_radius lon_radius : F) :
  (forall sides ring,
      _create_ngon center_lat center_lon lat_radius lon_radius sides = Ok ring ->
      closed_ring ring)
  /\ (forall ring,
        _create_circle center_lat center_lon lat_radius lon_radius = Ok ring ->
        closed_ring ring)
  /\ (forall (g g' : G) ring,
        _create_oval center_lat center_lon lat_radius lon_radius g = (Ok ring, g') ->
        closed_ring ring).
Proof.
  split; [|split].
  - intros sides ring H.
    destruct (Z_lt_le_dec 0 sides) as [Hs|Hs].
    + rewrite _create_ngon_ok in H by exact Hs. apply Ok_inj in H.
      subst ring. now apply loop_ring_closed.
    + rewrite _create_ngon_raises in H by exact Hs. discriminate.
  - intros ring H. rewrite _create_circle_ok in H. apply Ok_inj in H.
    subst ring. now apply loop_ring_closed.
  - intros g g' ring H.
    apply _create_oval_inv in H. destruct H as (o & _ & ->).
    now apply loop_ring_closed.
Qed.

(** The ring of an n-gon of [k] sides: [k + 1] points, the [i]-th at the
    angle [2 pi i / k] of the ellipse of the two radii, the last one the
    first one again. *)
Lemma ngon_ring_points (center_lat center_lon lat_radius lon_radius : F) (k : Z) :
  (3 <= k)%Z ->
  exists ring,
    _create_ngon center_lat center_lon lat_radius lon_radius k = Ok ring
    /\ List.length ring = (Z.to_nat k + 1)%nat
    /\ (forall i, (0 <= i < k)%Z ->
          nth_error ring (Z.to_nat i)
          = Some (center_lon
                  + lon_radius
                    * math_cos ((of_int 2 * math_pi * of_int i) / of_int k),
                  center_lat
                  + lat_radius
                    * math_sin ((of_int 2 * math_pi * of_int i) / of_int k)))
    /\ nth_error ring (Z.to_nat k) = nth_error ring 0.
Proof.
  intros Hk. eexists. split; [apply _create_ngon_ok; lia|].
  split; [apply loop_ring_length|]. split.
  - intros i Hi. rewrite loop_ring_nth by lia.
    rewrite Z2Nat.id by lia. reflexivity.
  - rewrite loop_ring_last, (@loop_ring_nth _ _ k 0) by lia. reflexivity.
Qed.

(** C7. A circle and an oval are rings of exactly 65 points: the 64 samples
    at the angles [2 pi i / 64], [i = 0 .. 63], and the first point again.
    The circle uses the mean of the two radii on both axes; the oval uses,
    by its drawn orientation, [1.5 lon_radius] and [0.7 lat_radius] or
    [0.7 lon_radius] and [1.5 lat_radius]. *)
Theorem circle_and_oval_have_65_points
    (center_lat center_lon lat_radius lon_radius : F) :
  (exists ring,
      _create_circle center_lat center_lon lat_radius lon_radius = Ok ring
      /\ List.length ring = 65%nat
      /\ (forall i, (0 <= i < 64)%Z ->
            nth_error ring (Z.to_nat i)
            = Some (center_lon
                    + ((lat_radius + lon_radius) / of_int 2)
                      * math_cos ((of_int 2 * math_pi * of_int i) / of_int 64),
                    center_lat
                    + ((lat_radius + lon_radius) / of_int 2)
                      * math_sin ((of_int 2 * math_pi * of_int i) / of_int 64)))
      /\ nth_error ring 64 = nth_error ring 0)
  /\ (forall g : G,
        exists ring g' x_radius y_radius,
          _create_oval center_lat center_lon lat_radius lon_radius g = (Ok ring, g')
          /\ ((x_radius = lon_radius * lit_1_5 /\ y_radius = lat_radius * lit_0_7)
              \/ (x_radius = lon_radius * lit_0_7 /\ y_radius = lat_radius * lit_1_5))
          /\ List.length ring = 65%nat
          /\ (forall i, (0 <= i < 64)%Z ->
                nth_error ring (Z.to_nat i)
                = Some (center_lon
                        + x_radius
                          * math_cos ((of_int 2 * math_pi * of_int i) / of_int 64),
                        center_lat
                        + y_radius
                          * math_sin ((of_int 2 * math_pi * of_int i) / of_int 64)))
          /\ nth_error ring 64 = nth_error ring 0).
Proof.
  split.
  - eexists. split; [apply _create_circle_ok|].
    split; [apply loop_ring_length|]. split.
    + intros i Hi. rewrite loop_ring_nth by (unfold num_points; lia).
      rewrite Z2Nat.id by lia. reflexivity.
    + change 64%nat with (Z.to_nat num_points) at 1.
      rewrite loop_ring_last, (@loop_ring_nth _ _ num_points 0)
        by (unfold num_points; lia).
      reflexivity.
  - intros g.
    destruct (_create_oval_ok center_lat center_lon lat_radius lon_radius g)
      as (o & g' & Ho & _ & E).
    exists (map (oval_point center_lat center_lon lat_radius lon_radius o)
              (range num_points)
            ++ [oval_point center_lat center_lon lat_radius lon_radius o 0]), g'.
    exists (if (o =? 0)%Z then lon_radius * lit_1_5 else lon_radius * lit_0_7).
    exists (if (o =? 0)%Z then lat_radius * lit_0_7 else lat_radius * lit_1_5).
    split; [exact E|]. split.
    { destruct Ho as [-> | ->]; simpl; auto. }
    split; [apply loop_ring_length|]. split.
    + intros i Hi. rewrite loop_ring_nth by (unfold num_points; lia).
      rewrite Z2Nat.id by lia. unfold oval_point.
      destruct Ho as [-> | ->]; reflexivity.
    + change 64%nat with (Z.to_nat num_points) at 1.
      rewrite loop_ring_last, (@loop_ring_nth _ _ num_points 0)
        by (unfold num_points; lia).
      reflexivity.
Qed.

End Structure.

Section Batch.

Context {F : Type} {FO : FloatOps F}.
Context {G : Type} {RS : RandomSource F G}.

Variables (min_size_km max_size_km : F).
Variables (min_vertices max_vertices : Z).
Variables (include_circles include_ovals : bool).

Lemma attempt_loop_exhausted (n : nat) (g gn : G) :
  after_rejections n min_size_km max_size_km g = Some gn ->
  attempt_loop n min_size_km max_size_km min_vertices max_vertices
    include_circles include_ovals g
  = (Raise exhausted, gn).
Proof.
  revert g. induction n as [|n IH]; intros g; cbn [after_rejections attempt_loop].
  - intros H. injection H as <-. reflexivity.
  - unfold bind.
    destruct (sample_candidate min_size_km max_size_km g) as [[c|e] g1];
      [|discriminate].
    destruct (would_wrap c); [apply IH | discriminate].
Qed.

(** A call that raises after [j] calls that returned ends [polygons]. *)
Lemma polygons_raise (j n : nat) (g gj g' : G)
    (rs : list (list (list (@point F)) * string)) (e : exn) :
  (j < n)%nat ->
  polygons j min_size_km max_size_km min_vertices max_vertices include_circles
    include_ovals g = (Ok rs, gj) ->
  generate_random_polygon min_size_km max_size_km min_vertices max_vertices
    include_circles include_ovals gj = (Raise e, g') ->
  polygons n min_size_km max_size_km min_vertices max_vertices include_circles
    include_ovals g = (Raise e, g').
Proof.
  revert n g rs. induction j as [|j IH]; intros n g rs Hj Hp He.
  - destruct n as [|n]; [lia|]. cbn [polygons] in *. unfold ret in Hp.
    apply pair_equal_spec in Hp. destruct Hp as [_ <-].
    unfold bind. now rewrite He.
  - destruct n as [|n]; [lia|]. cbn [polygons] in *. unfold bind in *.
    destruct (generate_random_polygon _ _ _ _ _ _ g) as [[r|e0] g1];
      [|discriminate].
    destruct (polygons j _ _ _ _ _ _ g1) as [[rs'|e0] g2] eqn:E; [|discriminate].
    unfold ret in Hp. apply pair_equal_spec in Hp. destruct Hp as [_ <-].
    rewrite (IH n g1 rs') by (auto; lia). reflexivity.
Qed.

(** When [polygons] raises, the exception is the one of a call made after
    the calls before it returned. *)
Lemma polygons_raise_inv (n : nat) (g g' : G) (e : exn) :
  polygons n min_size_km max_size_km min_vertices max_vertices include_circles
    include_ovals g = (Raise e, g') ->
  exists j rs gj,
    (j < n)%nat
    /\ polygons j min_size_km max_size_km min_vertices max_vertices
         include_circles include_ovals g = (Ok rs, gj)
    /\ generate_random_polygon min_size_km max_size_km min_vertices max_vertices
         include_circles include_ovals gj = (Raise e, g').
Proof.
  revert g. induction n as [|n IH]; intros g; cbn [polygons].
  - discriminate.
  - unfold bind.
    destruct (generate_random_polygon _ _ _ _ _ _ g) as [[r|e0] g1] eqn:E0.
    + destruct (polygons n _ _ _ _ _ _ g1) as [[rs'|e1] g2] eqn:E; [discriminate|].
      intros H. apply pair_equal_spec in H. destruct H as [H <-].
      injection H as <-.
      destruct (IH g1 E) as (j & rs & gj & Hj & Hp & He).
      exists (S j), (r :: rs), gj. split; [lia|]. split; [|exact He].
      cbn [polygons]. unfold bind. rewrite E0, Hp. reflexivity.
    + intros H. apply pair_equal_spec in H. destruct H as [H <-].
      injection H as <-.
      exists 0%nat, [], g. split; [lia|]. split; [reflexivity | exact E0].
Qed.

(** C4. A batch of [count >= 0] polygons that returns holds exactly [count]
    features whose ids are [1 .. count] in generation order; it returns
    whenever the [count] calls of [generate_random_polygon] return; and with
    [count = 0] it always returns the empty feature list. *)
Theorem batch_has_count_features_numbered_from_1 (count : Z) (g : G) :
  (count = 0%Z ->
   generate_mock_polygons count min_size_km max_size_km min_vertices
     max_vertices include_circles include_ovals g
   = (Ok {| features := [] |}, g))
  /\ (forall rs g',
        polygons (Z.to_nat count) min_size_km max_size_km min_vertices
          max_vertices include_circles include_ovals g = (Ok rs, g') ->
        generate_mock_polygons count min_size_km max_size_km min_vertices
          max_vertices include_circles include_ovals g
        = (Ok {| features := number_features 1 rs |}, g'))
  /\ (forall fc g',
        (0 <= count)%Z ->
        generate_mock_polygons count min_size_km max_size_km min_vertices
          max_vertices include_circles include_ovals g = (Ok fc, g') ->
        List.length (features fc) = Z.to_nat count
        /\ map (@id F) (features fc) = range2 1 (count + 1)).
Proof.
  split; [|split].
  - intros ->. reflexivity.
  - intros rs g' Hp. rewrite generate_mock_polygons_polygons, Hp. reflexivity.
  - intros fc g' Hc H. rewrite generate_mock_polygons_polygons in H.
    destruct (polygons _ _ _ _ _ _ _ g) as [[rs|e] g1] eqn:Hp; [|discriminate].
    apply pair_equal_spec in H. destruct H as [H _]. apply Ok_inj in H.
    subst fc. cbn [features]. apply polygons_length in Hp.
    split.
    + now rewrite number_features_length.
    + rewrite number_features_ids, Hp. unfold range2.
      replace (count + 1 - 1)%Z with count by lia. reflexivity.
Qed.

(** C3. A call of [generate_random_polygon] draws at most 100 candidates: it
    ends at the first candidate that passes the wrap check, at a candidate
    whose drawing raises, or after 100 rejected candidates, and then with the
    exhaustion error.  An exception of a call is the outcome of the enclosing
    batch, which then returns no feature collection. *)
Theorem exhaustion_after_100_candidates_fails_the_batch (g : G) :
  ((exists j gj c g1,
       (j < 100)%nat
       /\ after_rejections j min_size_km max_size_km g = Some gj
       /\ sample_candidate min_size_km max_size_km gj = (Ok c, g1)
       /\ would_wrap c = false
       /\ generate_random_polygon min_size_km max_size_km min_vertices
            max_vertices include_circles include_ovals g
          = rasterize min_vertices max_vertices include_circles include_ovals c g1)
   \/ (exists j gj e g1,
         (j < 100)%nat
         /\ after_rejections j min_size_km max_size_km g = Some gj
         /\ sample_candidate min_size_km max_size_km gj = (Raise e, g1)
         /\ generate_random_polygon min_size_km max_size_km min_vertices
              max_vertices include_circles include_ovals g
            = (Raise e, g1))
   \/ (exists g100,
         after_rejections 100 min_size_km max_size_km g = Some g100
         /\ generate_random_polygon min_size_km max_size_km min_vertices
              max_vertices include_circles include_ovals g
            = (Raise exhausted, g100)))
  /\ (forall g100,
        after_rejections 100 min_size_km max_size_km g = Some g100 ->
        generate_random_polygon min_size_km max_size_km min_vertices
          max_vertices include_circles include_ovals g
        = (Raise exhausted, g100))
  /\ (forall count j rs gj e g',
        (0 <= j < count)%Z ->
        polygons (Z.to_nat j) min_size_km max_size_km min_vertices max_vertices
          include_circles include_ovals g = (Ok rs, gj) ->
        generate_random_polygon min_size_km max_size_km min_vertices
          max_vertices include_circles include_ovals gj = (Raise e, g') ->
        generate_mock_polygons count min_size_km max_size_km min_vertices
          max_vertices include_circles include_ovals g
        = (Raise e, g')).
Proof.
  split; [|split].
  - apply (attempt_loop_cases min_size_km max_size_km min_vertices max_vertices
             include_circles include_ovals max_attempts g).
  - intros g100 H. now apply attempt_loop_exhausted.
  - intros count j rs gj e g' Hj Hp He.
    rewrite generate_mock_polygons_polygons.
    rewrite (@polygons_raise (Z.to_nat j) (Z.to_nat count) g gj g' rs e)
      by (auto; lia).
    reflexivity.
Qed.

(** C2, as the code has it.  The batch validates nothing and has no
    parameter error: with [count <= 0] it returns the empty collection
    whatever the other parameters are, and an exception that it surfaces is
    the one raised by a call of [generate_random_polygon], made after the
    calls before it returned. *)
Theorem batch_raises_only_from_generation (count : Z) (g : G) :
  ((count <= 0)%Z ->
   generate_mock_polygons count min_size_km max_size_km min_vertices
     max_vertices include_circles include_ovals g
   = (Ok {| features := [] |}, g))
  /\ (forall e g',
        generate_mock_polygons count min_size_km max_size_km min_vertices
          max_vertices include_circles include_ovals g = (Raise e, g') ->
        exists j rs gj,
          (0 <= j < count)%Z
          /\ polygons (Z.to_nat j) min_size_km max_size_km min_vertices
               max_vertices include_circles include_ovals g = (Ok rs, gj)
          /\ generate_random_polygon min_size_km max_size_km min_vertices
               max_vertices include_circles include_ovals gj = (Raise e, g')).
Proof.
  split.
  - intros Hc. rewrite generate_mock_polygons_polygons.
    replace (Z.to_nat count) with 0%nat by lia. reflexivity.
  - intros e g' H. rewrite generate_mock_polygons_polygons in H.
    destruct (polygons _ _ _ _ _ _ _ g) as [[rs|e0] g1] eqn:Hp; [discriminate|].
    apply pair_equal_spec in H. destruct H as [H <-]. injection H as <-.
    destruct (polygons_raise_inv _ _ Hp) as (j & rs & gj & Hj & Hpj & He).
    exists (Z.of_nat j), rs, gj. rewrite Nat2Z.id. split; [lia|]. auto.
Qed.

(** C8. With circles and ovals disabled, the shape list holds exactly one
    entry per vertex count of [min_vertices .. max_vertices], so the shape of
    a returned polygon, and of every feature of a returned batch, is
    ["<k>-gon"] for such a [k], and never ["circle"] or ["oval"]. *)
Theorem ngons_only_when_circles_and_ovals_disabled :
  shape_types min_vertices max_vertices false false
  = map ngon (range2 min_vertices (max_vertices + 1))
  /\ NoDup (shape_types min_vertices max_vertices false false)
  /\ (forall s,
        In s (shape_types min_vertices max_vertices false false)
        <-> exists k, (min_vertices <= k <= max_vertices)%Z /\ s = ngon k)
  /\ (forall (g g' : G) rings shp,
        generate_random_polygon min_size_km max_size_km min_vertices
          max_vertices false false g = (Ok (rings, shp), g') ->
        (exists k,
            (min_vertices <= k <= max_vertices)%Z
            /\ shp = (str k ++ "-gon")%string)
        /\ shp <> "circle"%string /\ shp <> "oval"%string)
  /\ (forall count (g g' : G) fc f,
        generate_mock_polygons count min_size_km max_size_km min_vertices
          max_vertices false false g = (Ok fc, g') ->
        In f (features fc) ->
        (exists k,
            (min_vertices <= k <= max_vertices)%Z
            /\ shape f = (str k ++ "-gon")%string)
        /\ shape f <> "circle"%string /\ shape f <> "oval"%string).
Proof.
  assert (Hone : forall (g g' : G) rings shp,
             generate_random_polygon min_size_km max_size_km min_vertices
               max_vertices false false g = (Ok (rings, shp), g') ->
             (exists k,
                 (min_vertices <= k <= max_vertices)%Z
                 /\ shp = (str k ++ "-gon")%string)
             /\ shp <> "circle"%string /\ shp <> "oval"%string).
  { intros g g' rings shp H.
    apply generate_random_polygon_inv in H.
    destruct H as (gj & c & g1 & _ & _ & H).
    apply rasterize_inv in H.
    destruct H as (ring & _ & [(k & Hk & _ & ->) | [(Hf & _) | (Hf & _)]]);
      try discriminate.
    split; [eauto|]. split; [apply gon_not_circle | apply gon_not_oval]. }
  split; [|split; [|split; [|split]]].
  - rewrite shape_types_eq. simpl. now rewrite app_nil_r.
  - rewrite shape_types_eq. simpl. rewrite app_nil_r.
    apply Injective_map_NoDup; [|apply range2_NoDup].
    intros a b H. now injection H.
  - intros s. split.
    + intros H. destruct s as [k| |].
      * apply shape_types_ngon in H. eauto.
      * apply shape_types_circle in H. discriminate.
      * apply shape_types_oval in H. discriminate.
    + intros (k & Hk & ->). now apply shape_types_ngon.
  - exact Hone.
  - intros count g g' fc f H Hin.
    rewrite generate_mock_polygons_polygons in H.
    destruct (polygons _ _ _ _ _ _ _ g) as [[rs|e] g1] eqn:Hp; [|discriminate].
    apply pair_equal_spec in H. destruct H as [H _]. apply Ok_inj in H.
    subst fc. cbn [features] in Hin. apply number_features_In in Hin.
    eapply polygons_In in Hin; [|exact Hp]. destruct Hin as (ga & gb & Hg).
    eapply Hone; eauto.
Qed.

End Batch.

(** * Determinism *)

Section Determinism.

Context {F : Type} {FO : FloatOps F}.
Context {G1 G2 : Type} {RS1 : RandomSource F G1} {RS2 : RandomSource F G2}.

Variable rel : G1 -> G2 -> Prop.
Hypothesis rel_same_draws : same_draws rel.

Lemma agree_ret (A : Type) (a : A) : agree rel (ret a) (ret a).
Proof. intros g1 g2 H. split; [reflexivity | exact H]. Qed.

Lemma agree_raise (A : Type) (e : exn) : agree rel (@raise G1 A e) (@raise G2 A e).
Proof. intros g1 g2 H. split; [reflexivity | exact H]. Qed.

Lemma agree_lift (A : Type) (r : result A) : agree rel (lift r) (lift r).
Proof. intros g1 g2 H. split; [reflexivity | exact H]. Qed.

Lemma agree_bind (A B : Type) (m1 : M G1 A) (m2 : M G2 A)
    (k1 : A -> M G1 B) (k2 : A -> M G2 B) :
  agree rel m1 m2 ->
  (forall a, agree rel (k1 a) (k2 a)) ->
  agree rel (bind m1 k1) (bind m2 k2).
Proof.
  intros Hm Hk g1 g2 H. unfold bind.
  destruct (Hm g1 g2 H) as [Hr Hs].
  destruct (m1 g1) as [[a|e] g1'], (m2 g2) as [[a'|e'] g2'];
    simpl in Hr, Hs; try discriminate.
  - injection Hr as <-. now apply Hk.
  - injection Hr as <-. split; [reflexivity | exact Hs].
Qed.

Lemma agree_random_uniform (a b : F) :
  agree rel (random_uniform a b) (random_uniform a b).
Proof.
  intros g1 g2 H. unfold random_uniform.
  destruct (rel_same_draws H) as [[Hu Hs] _].
  destruct (rng_random g1) as [u1 g1'], (rng_random g2) as [u2 g2'].
  simpl in Hu, Hs. subst u2. split; [reflexivity | exact Hs].
Qed.

Lemma agree_random_choice (A : Type) (l : list A) :
  agree rel (random_choice l) (random_choice l).
Proof.
  intros g1 g2 H. unfold random_choice.
  destruct l as [|a l']; [split; [reflexivity | exact H]|].
  destruct (rel_same_draws H) as [_ Hn].
  destruct (Hn (List.length (a :: l'))) as [Hk Hs].
  destruct (rng_randbelow (List.length (a :: l')) g1) as [k1 g1'].
  destruct (rng_randbelow (List.length (a :: l')) g2) as [k2 g2'].
  simpl in Hk, Hs. subst k2.
  destruct (nth_error (a :: l') k1); split; auto.
Qed.

Lemma agree_for_each (A S : Type) (l : list A)
    (body1 : A -> S -> M G1 S) (body2 : A -> S -> M G2 S) :
  (forall i s, agree rel (body1 i s) (body2 i s)) ->
  forall s, agree rel (for_each l body1 s) (for_each l body2 s).
Proof.
  intros Hb. induction l as [|i l IH]; intros s; cbn [for_each].
  - apply agree_ret.
  - apply agree_bind; [apply Hb | exact IH].
Qed.

Lemma agree_sample_candidate (min_size_km max_size_km : F) :
  agree rel (sample_candidate min_size_km max_size_km)
    (sample_candidate min_size_km max_size_km).
Proof.
  unfold sample_candidate.
  repeat (apply agree_bind; [first [apply agree_random_uniform | apply agree_lift]|];
          intros ?).
  apply agree_ret.
Qed.

Lemma agree_create_oval (center_lat center_lon lat_radius lon_radius : F) :
  agree rel (_create_oval center_lat center_lon lat_radius lon_radius)
    (_create_oval center_lat center_lon lat_radius lon_radius).
Proof.
  unfold _create_oval.
  apply agree_bind; [apply agree_random_choice|]. intros o. apply agree_lift.
Qed.

Lemma agree_rasterize (min_vertices max_vertices : Z)
    (include_circles include_ovals : bool) (c : @candidate F) :
  agree rel (rasterize min_vertices max_vertices include_circles include_ovals c)
    (rasterize min_vertices max_vertices include_circles include_ovals c).
Proof.
  unfold rasterize.
  apply agree_bind; [apply agree_random_choice|]. intros [k| |].
  - apply agree_bind; [apply agree_lift|]. intros ?. apply agree_ret.
  - apply agree_bind; [apply agree_lift|]. intros ?. apply agree_ret.
  - apply agree_bind; [apply agree_create_oval|]. intros ?. apply agree_ret.
Qed.

Lemma agree_attempt_loop (n : nat) (min_size_km max_size_km : F)
    (min_vertices max_vertices : Z) (include_circles include_ovals : bool) :
  agree rel
    (attempt_loop n min_size_km max_size_km min_vertices max_vertices
       include_circles include_ovals)
    (attempt_loop n min_size_km max_size_km min_vertices max_vertices
       include_circles include_ovals).
Proof.
  induction n as [|n IH]; cbn [attempt_loop].
  - apply agree_raise.
  - apply agree_bind; [apply agree_sample_candidate|]. intros c.
    destruct (would_wrap c); [exact IH | apply agree_rasterize].
Qed.


End Determinism.

(** * Real arithmetic: the wrap check and the vertices *)

Ltac real_ops :=
  cbn [of_int lit_1_5 lit_0_7 math_pi fadd fsub fmul fdiv fis_zero fltb
       math_cos math_sin R_ops] in *.

Local Open Scope R_scope.

Lemma Rltb_true (x y : R) : fltb x y = true <-> x < y.
Proof.
  real_ops. destruct (Rlt_dec x y); split; intros H; auto; try discriminate;
    try contradiction.
Qed.

Lemma Rltb_false (x y : R) : fltb x y = false <-> y <= x.
Proof.
  real_ops. destruct (Rlt_dec x y); split; intros H; auto; try discriminate; lra.
Qed.

(** The wrap check passes exactly when the box of the centre and the two
    radii lies inside the closed bounds. *)
Lemma _would_wrap_false (center_lat center_lon lat_radius lon_radius : R) :
  _would_wrap center_lat center_lon lat_radius lon_radius = false
  <-> center_lat + lat_radius <= 85
      /\ -85 <= center_lat - lat_radius
      /\ center_lon + lon_radius <= 180
      /\ -180 <= center_lon - lon_radius.
Proof.
  unfold _would_wrap.
  destruct (fltb (of_int 85) (fadd center_lat lat_radius)) eqn:E1;
  destruct (fltb (fsub center_lat lat_radius) (of_int (-85))) eqn:E2;
  destruct (fltb (of_int 180) (fadd center_lon lon_radius)) eqn:E3;
  destruct (fltb (fsub center_lon lon_radius) (of_int (-180))) eqn:E4;
  cbn [orb];
  rewrite ?Rltb_true, ?Rltb_false in *; real_ops;
  split; intros H; try discriminate; try reflexivity; try lra.
Qed.

Lemma Rabs_scaled (r t : R) : 0 <= r -> -1 <= t <= 1 -> Rabs (r * t) <= r.
Proof.
  intros Hr Ht. apply Rabs_le. split; nra.
Qed.

Lemma Rabs_le_bounds (a b : R) : Rabs a <= b -> - b <= a <= b.
Proof.
  unfold Rabs. destruct (Rcase_abs a); lra.
Qed.

(** A vertex of an n-gon lies within the two radii of the centre. *)
Lemma ngon_point_within_radii (center_lat center_lon lat_radius lon_radius : R)
    (sides i : Z) :
  0 <= lat_radius -> 0 <= lon_radius ->
  Rabs (lon (ngon_point center_lat center_lon lat_radius lon_radius sides i)
        - center_lon) <= lon_radius
  /\ Rabs (lat (ngon_point center_lat center_lon lat_radius lon_radius sides i)
           - center_lat) <= lat_radius.
Proof.
  intros Hlat Hlon. unfold ngon_point, lon, lat. cbn [fst snd]. real_ops.
  split.
  - match goal with |- Rabs (?c + ?r * cos ?a - ?c) <= _ =>
      replace (c + r * cos a - c) with (r * cos a) by ring;
      apply Rabs_scaled; [assumption | apply COS_bound]
    end.
  - match goal with |- Rabs (?c + ?r * sin ?a - ?c) <= _ =>
      replace (c + r * sin a - c) with (r * sin a) by ring;
      apply Rabs_scaled; [assumption | apply SIN_bound]
    end.
Qed.

Lemma draw_unit_interval (z : Z) : 0 <= draw z < 1.
Proof.
  unfold draw.
  assert (H : (0 <= z mod two53 < two53)%Z)
    by (apply Z.mod_pos_bound; reflexivity).
  assert (H0 : 0 < IZR two53) by (apply IZR_lt; reflexivity).
  destruct H as [Hlo Hhi]. apply IZR_le in Hlo. apply IZR_lt in Hhi.
  split.
  - apply Rmult_le_pos; [exact Hlo | left; now apply Rinv_0_lt_compat].
  - apply Rmult_lt_reg_r with (r := IZR two53); [exact H0|].
    unfold Rdiv. rewrite Rmult_assoc, Rinv_l by lra. lra.
Qed.

Lemma script_unit_interval : unit_interval_source script.
Proof.
  intros s. cbn [rng_random script_source]. unfold script_random.
  destruct (numerators s) as [|z zs]; cbn [fst]; [lra | apply draw_unit_interval].
Qed.

Lemma draw_half : draw half = 1 / 2.
Proof.
  unfold draw, half, two53.
  change (4503599627370496 mod 9007199254740992)%Z with 4503599627370496%Z.
  lra.
Qed.

Lemma draw_three_quarters : draw three_quarters = 3 / 4.
Proof.
  unfold draw, three_quarters, two53.
  change (6755399441055744 mod 9007199254740992)%Z with 6755399441055744%Z.
  lra.
Qed.

(** The cosine of a latitude of the closed pole bounds is positive. *)
Lemma cos_radians_pos (x : R) : -85 <= x <= 85 -> 0 < cos (x * (PI / 180)).
Proof.
  intros Hx. pose proof PI_RGT_0 as Hpi.
  apply cos_gt_0; nra.
Qed.

Section RealGenerator.

Context {G : Type} {RS : RandomSource R G}.

Hypothesis unit_draws : unit_interval_source G.

(** The candidate of an attempt, in terms of its three draws. *)
Lemma sample_candidate_inv (min_size_km max_size_km : R) (g g' : G)
    (c : @candidate R) :
  sample_candidate min_size_km max_size_km g = (Ok c, g') ->
  exists u1 u2 u3,
    (0 <= u1 < 1 /\ 0 <= u2 < 1 /\ 0 <= u3 < 1)
    /\ center_lat c = -85 + (85 - -85) * u1
    /\ center_lon c = -180 + (180 - -180) * u2
    /\ lat_radius_deg c = (min_size_km + (max_size_km - min_size_km) * u3) / 111
    /\ lon_radius_deg c
       = (min_size_km + (max_size_km - min_size_km) * u3)
         / (111 * cos (center_lat c * (PI / 180))).
Proof.
  unfold sample_candidate, bind, random_uniform, lift, pydiv, ret, math_radians.
  pose proof (unit_draws g) as H1.
  destruct (rng_random g) as [u1 g1].
  pose proof (unit_draws g1) as H2.
  destruct (rng_random g1) as [u2 g2].
  pose proof (unit_draws g2) as H3.
  destruct (rng_random g2) as [u3 g3].
  cbn [fst] in H1, H2, H3.
  destruct (fis_zero _); [discriminate|].
  intros H. apply pair_equal_spec in H. destruct H as [H _].
  apply Ok_inj in H. subst c. cbn [center_lat center_lon lat_radius_deg lon_radius_deg].
  real_ops. exists u1, u2, u3. repeat split; try lra.
Qed.

(** Drawing a candidate never divides by zero. *)
Lemma sample_candidate_returns (min_size_km max_size_km : R) (g : G) :
  exists c g', sample_candidate min_size_km max_size_km g = (Ok c, g').
Proof.
  unfold sample_candidate, bind, random_uniform, lift, pydiv, ret, math_radians.
  pose proof (unit_draws g) as H1.
  destruct (rng_random g) as [u1 g1].
  destruct (rng_random g1) as [u2 g2].
  destruct (rng_random g2) as [u3 g3].
  cbn [fst] in H1. real_ops.
  destruct (Req_dec_T _ 0) as [E|E]; [|eauto].
  exfalso.
  assert (Hc : 0 < cos ((-85 + (85 - -85) * u1) * (PI / 180)))
    by (apply cos_radians_pos; lra).
  lra.
Qed.

(** With sizes that are not negative, the centre latitude of a candidate lies
    in the pole bounds and its two radii are not negative. *)
Lemma candidate_radii_nonneg (min_size_km max_size_km : R) (g g' : G)
    (c : @candidate R) :
  0 <= min_size_km -> 0 <= max_size_km ->
  sample_candidate min_size_km max_size_km g = (Ok c, g') ->
  0 <= lat_radius_deg c /\ 0 <= lon_radius_deg c.
Proof.
  intros Hmin Hmax H.
  apply sample_candidate_inv in H.
  destruct H as (u1 & u2 & u3 & (H1 & H2 & H3) & Elat & Elon & Erlat & Erlon).
  assert (Hsize : 0 <= min_size_km + (max_size_km - min_size_km) * u3) by nra.
  assert (Hc : 0 < cos (center_lat c * (PI / 180)))
    by (apply cos_radians_pos; lra).
  rewrite Erlat, Erlon. split.
  - apply Rmult_le_pos; [exact Hsize | left; apply Rinv_0_lt_compat; lra].
  - apply Rmult_le_pos; [exact Hsize | left; apply Rinv_0_lt_compat; nra].
Qed.

(** The vertices of the n-gon of a candidate that passed the wrap check lie
    inside the closed bounds. *)
Lemma ngon_of_candidate_within_bounds (c : @candidate R) (k : Z)
    (ring : list (@point R)) (p : @point R) :
  0 <= lat_radius_deg c -> 0 <= lon_radius_deg c ->
  would_wrap c = false ->
  _create_ngon (center_lat c) (center_lon c) (lat_radius_deg c)
    (lon_radius_deg c) k = Ok ring ->
  In p ring ->
  within_bounds p.
Proof.
  intros Hlat Hlon Hw Hr Hp.
  apply _would_wrap_false in Hw. destruct Hw as (W1 & W2 & W3 & W4).
  destruct (Z_lt_le_dec 0 k) as [Hk|Hk].
  - rewrite _create_ngon_ok in Hr by exact Hk. apply Ok_inj in Hr. subst ring.
    apply loop_ring_In in Hp. destruct Hp as (i & ->).
    destruct (@ngon_point_within_radii (center_lat c) (center_lon c)
                (lat_radius_deg c) (lon_radius_deg c) k i Hlat Hlon) as [Bx By].
    apply Rabs_le_bounds in Bx. apply Rabs_le_bounds in By.
    unfold within_bounds. lra.
  - rewrite _create_ngon_raises in Hr by exact Hk. discriminate.
Qed.

End RealGenerator.

(** * Runs on a script *)

Section FirstTry.

Context {F : Type} {FO : FloatOps F}.
Context {G : Type} {RS : RandomSource F G}.

Variables (min_size_km max_size_km : F).
Variables (min_vertices max_vertices : Z).
Variables (include_circles include_ovals : bool).

(** A first candidate that passes the wrap check is the one rasterised. *)
Lemma generate_random_polygon_first_try (g g1 : G) (c : @candidate F) :
  sample_candidate min_size_km max_size_km g = (Ok c, g1) ->
  would_wrap c = false ->
  generate_random_polygon min_size_km max_size_km min_vertices max_vertices
    include_circles include_ovals g
  = rasterize min_vertices max_vertices include_circles include_ovals c g1.
Proof.
  intros Hs Hw. unfold generate_random_polygon.
  change max_attempts with (S 99).
  change (attempt_loop (S 99) min_size_km max_size_km min_vertices max_vertices
            include_circles include_ovals g)
    with (bind (sample_candidate min_size_km max_size_km)
            (fun c =>
               if would_wrap c
               then attempt_loop 99 min_size_km max_size_km min_vertices
                      max_vertices include_circles include_ovals
               else rasterize min_vertices max_vertices include_circles
                      include_ovals c) g).
  unfold bind. now rewrite Hs, Hw.
Qed.

Lemma batch_of_one (g g' : G) (r : list (list (@point F)) * string) :
  generate_random_polygon min_size_km max_size_km min_vertices max_vertices
    include_circles include_ovals g = (Ok r, g') ->
  generate_mock_polygons 1 min_size_km max_size_km min_vertices max_vertices
    include_circles include_ovals g
  = (Ok {| features := [{| coordinates := fst r; id := 1; shape := snd r |}] |},
     g').
Proof.
  intros H. rewrite generate_mock_polygons_polygons.
  change (Z.to_nat 1) with 1%nat. cbn [polygons]. unfold bind.
  rewrite H. reflexivity.
Qed.

End FirstTry.

(** A candidate drawn from a script, in terms of its three numerators. *)
Lemma sample_candidate_script (min_size_km max_size_km : R) (z1 z2 z3 : Z)
    (zs : list Z) (ks : list nat) (clat clon rlat rlon : R) :
  clat = -85 + (85 - -85) * draw z1 ->
  clon = -180 + (180 - -180) * draw z2 ->
  rlat = (min_size_km + (max_size_km - min_size_km) * draw z3) / 111 ->
  rlon = (min_size_km + (max_size_km - min_size_km) * draw z3)
         / (111 * cos (clat * (PI / 180))) ->
  sample_candidate min_size_km max_size_km
    {| numerators := z1 :: z2 :: z3 :: zs; indices := ks |}
  = (Ok {| center_lat := clat; center_lon := clon;
           lat_radius_deg := rlat; lon_radius_deg := rlon |},
     {| numerators := zs; indices := ks |}).
Proof.
  intros -> -> -> ->.
  unfold sample_candidate, bind, random_uniform, lift, pydiv, ret, math_radians.
  cbn [rng_random script_source script_random numerators indices].
  real_ops.
  destruct (Req_dec_T _ 0) as [E|E]; [|reflexivity].
  exfalso. pose proof (draw_unit_interval z1) as H1.
  assert (Hc : 0 < cos ((-85 + (85 - -85) * draw z1) * (PI / 180)))
    by (apply cos_radians_pos; lra).
  lra.
Qed.

(** A choice replayed from a script. *)
Lemma random_choice_script (A : Type) (l : list A) (x : A) (k : nat)
    (zs : list Z) (ks : list nat) :
  nth_error l (k mod List.length l) = Some x ->
  random_choice l {| numerators := zs; indices := k :: ks |}
  = (Ok x, {| numerators := zs; indices := ks |}).
Proof.
  intros H. unfold random_choice.
  destruct l as [|a l']; [destruct (k mod _)%nat; discriminate|].
  cbn [rng_randbelow script_source script_randbelow numerators indices].
  now rewrite H.
Qed.

(** The candidate of a script whose three draws are [1/2]: centred on the
    equator and the prime meridian, with two equal radii. *)
Lemma sample_candidate_centre (size_km : R) (zs : list Z) (ks : list nat) :
  sample_candidate size_km size_km
    {| numerators := half :: half :: half :: zs; indices := ks |}
  = (Ok {| center_lat := 0; center_lon := 0;
           lat_radius_deg := size_km / 111; lon_radius_deg := size_km / 111 |},
     {| numerators := zs; indices := ks |}).
Proof.
  apply sample_candidate_script; rewrite ?draw_half; try lra.
  replace (0 * (PI / 180)) with 0 by ring. rewrite cos_0.
  replace (111 * 1) with 111 by ring. lra.
Qed.

(** One polygon from a script whose three draws are [1/2], for a size whose
    radius stays inside the pole bound: the feature is what [rasterize] makes
    of the centred candidate. *)
Lemma batch_of_one_at_centre (size_km : R) (min_vertices max_vertices : Z)
    (include_circles include_ovals : bool) (zs : list Z) (ks : list nat)
    (r : list (list (@point R)) * string) (s' : script) :
  0 <= size_km / 111 <= 85 ->
  rasterize min_vertices max_vertices include_circles include_ovals
    {| center_lat := 0; center_lon := 0;
       lat_radius_deg := size_km / 111; lon_radius_deg := size_km / 111 |}
    {| numerators := zs; indices := ks |}
  = (Ok r, s') ->
  generate_mock_polygons 1 size_km size_km min_vertices max_vertices
    include_circles include_ovals
    {| numerators := half :: half :: half :: zs; indices := ks |}
  = (Ok {| features := [{| coordinates := fst r; id := 1; shape := snd r |}] |},
     s').
Proof.
  intros Hsize Hr. apply batch_of_one.
  erewrite generate_random_polygon_first_try.
  - exact Hr.
  - apply sample_candidate_centre.
  - unfold would_wrap. apply _would_wrap_false.
    cbn [center_lat center_lon lat_radius_deg lon_radius_deg]. lra.
Qed.

(** The run on [script_ngon] with [min_size_km = max_size_km = 9435]: one
    4-gon centred at [(0, 0)] with the two radii [85]. *)
Lemma run_script_ngon :
  generate_mock_polygons 1 9435 9435 4 4 true true script_ngon
  = (Ok {| features :=
             [{| coordinates :=
                   [map (ngon_point 0 0 (9435 / 111) (9435 / 111) 4) (range 4)
                    ++ [ngon_point 0 0 (9435 / 111) (9435 / 111) 4 0]];
                 id := 1;
                 shape := "4-gon" |}] |},
     script_empty).
Proof.
  unfold script_ngon.
  apply (@batch_of_one_at_centre 9435 4 4 true true [] [0%nat]
           ([map (ngon_point 0 0 (9435 / 111) (9435 / 111) 4) (range 4)
             ++ [ngon_point 0 0 (9435 / 111) (9435 / 111) 4 0]],
            "4-gon"%string)
           script_empty); [lra|].
  unfold rasterize, bind.
  rewrite (@random_choice_script _ _ (ngon 4) 0 [] []) by reflexivity.
  cbn [center_lat center_lon lat_radius_deg lon_radius_deg].
  rewrite _create_ngon_ok by lia. reflexivity.
Qed.

(** The run on [script_oval] with [min_size_km = max_size_km = 8880]: one
    north-south oval centred at [(0, 0)], drawn from the radii [80]. *)
Lemma run_script_oval :
  generate_mock_polygons 1 8880 8880 4 4 true true script_oval
  = (Ok {| features :=
             [{| coordinates :=
                   [map (oval_point 0 0 (8880 / 111) (8880 / 111) 1)
                      (range num_points)
                    ++ [oval_point 0 0 (8880 / 111) (8880 / 111) 1 0]];
                 id := 1;
                 shape := "oval" |}] |},
     script_empty).
Proof.
  unfold script_oval.
  apply (@batch_of_one_at_centre 8880 4 4 true true [] [2%nat; 1%nat]
           ([map (oval_point 0 0 (8880 / 111) (8880 / 111) 1) (range num_points)
             ++ [oval_point 0 0 (8880 / 111) (8880 / 111) 1 0]],
            "oval"%string)
           script_empty); [lra|].
  unfold rasterize, bind.
  rewrite (@random_choice_script _ _ oval 2 [] [1%nat]) by reflexivity.
  cbn [center_lat center_lon lat_radius_deg lon_radius_deg].
  unfold _create_oval, bind.
  rewrite (@random_choice_script _ _ 1%Z 1 [] []) by reflexivity.
  unfold lift. rewrite close_polygon_loop by reflexivity. reflexivity.
Qed.

(** * The bounds of the vertices *)

Lemma sin_quarter_of_4 : sin ((2 * PI * 1) / 4) = 1.
Proof.
  replace ((2 * PI * 1) / 4) with (PI / 2) by field. apply sin_PI2.
Qed.

Lemma sin_quarter_of_64 : sin ((2 * PI * 16) / 64) = 1.
Proof.
  replace ((2 * PI * 16) / 64) with (PI / 2) by field. apply sin_PI2.
Qed.




Lemma cos_of_42_5_degrees : 1 / 2 < cos (85 / 2 * (PI / 180)) < 1.
Proof.
  pose proof PI_RGT_0 as Hpi. split.
  - rewrite <- cos_PI3. apply cos_decreasing_1; lra.
  - rewrite <- cos_0. apply cos_decreasing_1; lra.
Qed.

(** The run on [script_circle] with [min_size_km = max_size_km = 4717.5]:
    one circle centred at latitude [42.5] with the latitude radius [42.5]. *)
Lemma run_script_circle :
  generate_mock_polygons 1 (9435 / 2) (9435 / 2) 4 4 true true script_circle
  = (Ok {| features :=
             [{| coordinates :=
                   [map (circle_point (85 / 2) 0 (85 / 2)
                           (9435 / 2 / (111 * cos (85 / 2 * (PI / 180)))))
                      (range num_points)
                    ++ [circle_point (85 / 2) 0 (85 / 2)
                          (9435 / 2 / (111 * cos (85 / 2 * (PI / 180)))) 0]];
                 id := 1;
                 shape := "circle" |}] |},
     script_empty).
Proof.
  pose proof cos_of_42_5_degrees as [Hc1 Hc2].
  unfold script_circle.
  apply (@batch_of_one R R_ops script script_source (9435 / 2) (9435 / 2) 4 4
           true true _ script_empty
           ([map (circle_point (85 / 2) 0 (85 / 2)
                    (9435 / 2 / (111 * cos (85 / 2 * (PI / 180)))))
               (range num_points)
             ++ [circle_point (85 / 2) 0 (85 / 2)
                   (9435 / 2 / (111 * cos (85 / 2 * (PI / 180)))) 0]],
            "circle"%string)).
  erewrite generate_random_polygon_first_try; cycle 1.
  - apply (@sample_candidate_script (9435 / 2) (9435 / 2) three_quarters half
             half [] [1%nat] (85 / 2) 0 (85 / 2)
             (9435 / 2 / (111 * cos (85 / 2 * (PI / 180)))));
      rewrite ?draw_half, ?draw_three_quarters; lra.
  - unfold would_wrap. apply _would_wrap_false.
    cbn [center_lat center_lon lat_radius_deg lon_radius_deg].
    set (c := cos (85 / 2 * (PI / 180))) in *.
    assert (HL : 9435 / 2 / (111 * c) * (111 * c) = 9435 / 2) by (field; lra).
    set (L := 9435 / 2 / (111 * c)) in *.
    repeat split; try lra; nra.
  - unfold rasterize, bind.
    rewrite (@random_choice_script _ _ circle 1 [] []) by reflexivity.
    cbn [center_lat center_lon lat_radius_deg lon_radius_deg].
    rewrite _create_circle_ok. reflexivity.
Qed.

(** C1 at two failing inputs.  The north-south oval of the run on
    [script_oval] has a vertex of latitude [120], and the circle of the run on
    [script_circle] has a vertex of a latitude above [85]: both candidates
    passed the wrap check, which looks at the two radii of the candidate and
    not at the radii the oval and the circle are drawn with. *)
Theorem oval_and_circle_vertices_leave_the_bounds :
  (exists fc g' f ring p,
      generate_mock_polygons 1 8880 8880 4 4 true true script_oval = (Ok fc, g')
      /\ In f (features fc)
      /\ shape f = "oval"%string
      /\ In ring (coordinates f)
      /\ In p ring
      /\ lat p = 120
      /\ ~ within_bounds p)
  /\ (exists fc g' f ring p,
        generate_mock_polygons 1 (9435 / 2) (9435 / 2) 4 4 true true
          script_circle = (Ok fc, g')
        /\ In f (features fc)
        /\ shape f = "circle"%string
        /\ In ring (coordinates f)
        /\ In p ring
        /\ 85 < lat p
        /\ ~ within_bounds p).
Proof.
  split.
  - eexists _, _, _, _, (oval_point 0 0 (8880 / 111) (8880 / 111) 1 16).
    split; [apply run_script_oval|].
    split; [left; reflexivity|].
    split; [reflexivity|].
    split; [left; reflexivity|].
    assert (E : lat (oval_point 0 0 (8880 / 111) (8880 / 111) 1 16) = 120).
    { unfold oval_point, lat, num_points. cbn [snd Z.eqb]. real_ops.
      rewrite sin_quarter_of_64. lra. }
    split; [|split].
    + apply in_or_app. left. apply in_map_iff. exists 16%Z.
      split; [reflexivity|].
      change (range num_points) with (map Z.of_nat (seq 0 64)).
      apply in_map_iff. exists 16%nat. split; [reflexivity|].
      apply in_seq. lia.
    + exact E.
    + unfold within_bounds. rewrite E. lra.
  - pose proof cos_of_42_5_degrees as [Hc1 Hc2].
    eexists _, _, _, _,
      (circle_point (85 / 2) 0 (85 / 2)
         (9435 / 2 / (111 * cos (85 / 2 * (PI / 180)))) 16).
    split; [apply run_script_circle|].
    split; [left; reflexivity|].
    split; [reflexivity|].
    split; [left; reflexivity|].
    assert (E : 85 < lat (circle_point (85 / 2) 0 (85 / 2)
                            (9435 / 2 / (111 * cos (85 / 2 * (PI / 180)))) 16)).
    { unfold circle_point, lat, num_points. cbn [snd]. real_ops.
      rewrite sin_quarter_of_64.
      set (c := cos (85 / 2 * (PI / 180))) in *.
      assert (HL : 9435 / 2 / (111 * c) * (111 * c) = 9435 / 2) by (field; lra).
      set (L := 9435 / 2 / (111 * c)) in *.
      assert (85 / 2 < L) by nra. lra. }
    split; [|split].
    + apply in_or_app. left. apply in_map_iff. exists 16%Z.
      split; [reflexivity|].
      change (range num_points) with (map Z.of_nat (seq 0 64)).
      apply in_map_iff. exists 16%nat. split; [reflexivity|].
      apply in_seq. lia.
    + exact E.
    + unfold within_bounds. lra.
Qed.

(** * The vertices of an n-gon are distinct *)

Lemma range_In (n k : Z) : In k (range n) <-> (0 <= k < n)%Z.
Proof.
  unfold range. rewrite in_map_iff. split.
  - intros (j & <- & Hj). apply in_seq in Hj. lia.
  - intros Hk. exists (Z.to_nat k). split; [lia|]. apply in_seq. lia.
Qed.

Lemma range_NoDup (n : Z) : NoDup (range n).
Proof.
  unfold range. apply Injective_map_NoDup; [|apply seq_NoDup].
  intros a b H. lia.
Qed.

(** Two angles of one turn with the same cosine and the same sine are the
    same angle. *)
Lemma same_direction_same_angle (a b : R) :
  0 <= b <= a -> a < 2 * PI -> cos a = cos b -> sin a = sin b -> a = b.
Proof.
  intros Hab Ha Hc Hs. pose proof PI_RGT_0 as Hpi.
  assert (Hsin : sin (a - b) = 0) by (rewrite sin_minus, Hc, Hs; ring).
  assert (Hcos : cos (a - b) = 1).
  { rewrite cos_minus, Hc, Hs. pose proof (sin2_cos2 b) as H.
    unfold Rsqr in H. lra. }
  destruct (sin_eq_O_2PI_0 (a - b)) as [H | [H | H]]; try lra.
  rewrite H, cos_PI in Hcos. lra.
Qed.

Lemma turn_angle_range (k i : Z) :
  (0 <= i < k)%Z -> 0 <= (2 * PI * IZR i) / IZR k < 2 * PI.
Proof.
  intros [Hi Hk]. pose proof PI_RGT_0 as Hpi.
  apply IZR_le in Hi. apply IZR_lt in Hk.
  assert (Hk0 : 0 < IZR k) by lra.
  assert (Hinv : 0 < / IZR k) by now apply Rinv_0_lt_compat.
  split.
  - apply Rmult_le_pos; [nra | lra].
  - apply Rmult_lt_reg_r with (r := IZR k); [exact Hk0|].
    unfold Rdiv. rewrite Rmult_assoc, Rinv_l by lra. nra.
Qed.

Lemma turn_angle_le (k i j : Z) :
  (0 < k)%Z -> (i <= j)%Z -> (2 * PI * IZR i) / IZR k <= (2 * PI * IZR j) / IZR k.
Proof.
  intros Hk Hij. pose proof PI_RGT_0 as Hpi.
  apply IZR_lt in Hk. apply IZR_le in Hij.
  apply Rmult_le_compat_r; [left; now apply Rinv_0_lt_compat | nra].
Qed.

Lemma turn_angle_inj (k i j : Z) :
  (0 < k)%Z -> (2 * PI * IZR i) / IZR k = (2 * PI * IZR j) / IZR k -> i = j.
Proof.
  intros Hk H. pose proof PI_RGT_0 as Hpi. apply IZR_lt in Hk.
  apply eq_IZR.
  apply Rmult_eq_reg_r in H; [|apply Rinv_neq_0_compat; lra].
  nra.
Qed.

(** With two radii that are not zero, the points of an n-gon at two indices
    of [0 .. k-1] differ. *)
Lemma ngon_point_inj (center_lat center_lon lat_radius lon_radius : R)
    (k i j : Z) :
  lat_radius <> 0 -> lon_radius <> 0 ->
  (0 <= i < k)%Z -> (0 <= j < k)%Z ->
  ngon_point center_lat center_lon lat_radius lon_radius k i
  = ngon_point center_lat center_lon lat_radius lon_radius k j ->
  i = j.
Proof.
  intros Hlat Hlon Hi Hj H. unfold ngon_point in H. real_ops.
  apply pair_equal_spec in H. destruct H as [Hx Hy].
  apply Rplus_eq_reg_l in Hx. apply Rplus_eq_reg_l in Hy.
  apply Rmult_eq_reg_l in Hx; [|exact Hlon].
  apply Rmult_eq_reg_l in Hy; [|exact Hlat].
  pose proof (turn_angle_range Hi) as Ri.
  pose proof (turn_angle_range Hj) as Rj.
  destruct (Z_le_gt_dec j i) as [Hji|Hji].
  - apply (@turn_angle_inj k); [lia|].
    apply same_direction_same_angle; auto; try lra.
    split; [lra | apply turn_angle_le; lia].
  - symmetry. apply (@turn_angle_inj k); [lia|].
    apply same_direction_same_angle; auto; try lra.
    split; [lra | apply turn_angle_le; lia].
Qed.

Lemma ngon_vertices_distinct (center_lat center_lon lat_radius lon_radius : R)
    (k : Z) :
  lat_radius <> 0 -> lon_radius <> 0 ->
  NoDup
    (firstn (Z.to_nat k)
       (map (ngon_point center_lat center_lon lat_radius lon_radius k) (range k)
        ++ [ngon_point center_lat center_lon lat_radius lon_radius k 0])).
Proof.
  intros Hlat Hlon.
  rewrite firstn_app, length_map, range_length, Nat.sub_diag, firstn_O, app_nil_r.
  rewrite <- (range_length k) at 1.
  rewrite <- (length_map (ngon_point center_lat center_lon lat_radius lon_radius k)).
  rewrite firstn_all.
  apply Injective_map_NoDup_in; [|apply range_NoDup].
  intros i j Hi Hj. apply range_In in Hi. apply range_In in Hj.
  now apply ngon_point_inj.
Qed.


(** * Runs that check the statements above *)

(** The candidate of an exhausted script lies on the south-west corner of
    the bounds, and wraps as soon as the least size is positive. *)
Lemma sample_candidate_empty_script (min_size_km max_size_km : R) :
  exists c,
    sample_candidate min_size_km max_size_km script_empty = (Ok c, script_empty)
    /\ center_lat c = -85
    /\ lat_radius_deg c = min_size_km / 111.
Proof.
  unfold sample_candidate, bind, random_uniform, lift, pydiv, ret, math_radians.
  cbn [rng_random script_source script_random numerators indices script_empty].
  real_ops.
  destruct (Req_dec_T _ 0) as [E|E].
  - exfalso.
    assert (Hc : 0 < cos ((-85 + (85 - -85) * 0) * (PI / 180)))
      by (apply cos_radians_pos; lra).
    lra.
  - eexists. split; [reflexivity|].
    cbn [center_lat lat_radius_deg]. split; lra.
Qed.

Lemma rejections_empty_script (n : nat) (min_size_km max_size_km : R) :
  0 < min_size_km ->
  after_rejections n min_size_km max_size_km script_empty = Some script_empty.
Proof.
  intros Hmin. induction n as [|n IH]; [reflexivity|].
  cbn [after_rejections].
  destruct (sample_candidate_empty_script min_size_km max_size_km)
    as (c & -> & Hlat & Hrad).
  destruct (would_wrap c) eqn:Hw; [exact IH|].
  exfalso. unfold would_wrap in Hw. apply _would_wrap_false in Hw.
  rewrite Hlat, Hrad in Hw. lra.
Qed.

(** The run on [script_ngon] with circles and ovals disabled. *)
Lemma run_script_ngon_only :
  generate_mock_polygons 1 9435 9435 4 4 false false script_ngon
  = (Ok {| features :=
             [{| coordinates :=
                   [map (ngon_point 0 0 (9435 / 111) (9435 / 111) 4) (range 4)
                    ++ [ngon_point 0 0 (9435 / 111) (9435 / 111) 4 0]];
                 id := 1;
                 shape := "4-gon" |}] |},
     script_empty).
Proof.
  unfold script_ngon.
  apply (@batch_of_one_at_centre 9435 4 4 false false [] [0%nat]
           ([map (ngon_point 0 0 (9435 / 111) (9435 / 111) 4) (range 4)
             ++ [ngon_point 0 0 (9435 / 111) (9435 / 111) 4 0]],
            "4-gon"%string)
           script_empty); [lra|].
  unfold rasterize, bind.
  rewrite (@random_choice_script _ _ (ngon 4) 0 [] []) by reflexivity.
  cbn [center_lat center_lon lat_radius_deg lon_radius_deg].
  rewrite _create_ngon_ok by lia. reflexivity.
Qed.

(** A batch of three on an exhausted script is exhausted at its first
    polygon. *)
Lemma exhaustion_run_of_three :
  generate_mock_polygons 3 1 5000 4 6 true true script_empty
  = (Raise exhausted, script_empty).
Proof.
  rewrite generate_mock_polygons_polygons.
  rewrite (@polygons_raise R R_ops script script_source 1 5000 4 6 true true
             0 (Z.to_nat 3) script_empty script_empty script_empty [] exhausted).
  - reflexivity.
  - change (Z.to_nat 3) with 3%nat. lia.
  - reflexivity.
  - apply attempt_loop_exhausted. apply rejections_empty_script. lra.
Qed.

(** An exhausted script delivers the draws of the zero generator. *)
Lemma exhausted_script_same_draws : same_draws exhausted_script.
Proof.
  intros s [] [Hn Hi].
  cbn [rng_random rng_randbelow script_source zero_source].
  unfold script_random, script_randbelow. rewrite Hn, Hi. cbn [fst snd].
  repeat split; assumption.
Qed.

(** The three rasterisers at the centre [(0, 0)] with the radii [1]. *)
Lemma rings_are_closed_witness :
  (exists ring,
      _create_ngon 0 0 1 1 4 = Ok ring /\ closed_ring ring)
  /\ (exists ring,
        _create_circle 0 0 1 1 = Ok ring /\ closed_ring ring)
  /\ (exists ring g',
        _create_oval 0 0 1 1 script_oval = (Ok ring, g') /\ closed_ring ring).
Proof.
  split; [|split].
  - eexists. split; [apply _create_ngon_ok; lia|].
    apply (proj1 (@rings_are_closed R R_ops script script_source 0 0 1 1) 4%Z).
    apply _create_ngon_ok. lia.
  - eexists. split; [apply _create_circle_ok|].
    apply (proj1 (proj2 (@rings_are_closed R R_ops script script_source 0 0 1 1))).
    apply _create_circle_ok.
  - destruct (@_create_oval_ok R R_ops script script_source 0 0 1 1 script_oval)
      as (o & g' & _ & _ & E).
    eexists _, g'. split; [exact E|].
    apply (proj2 (proj2 (@rings_are_closed R R_ops script script_source 0 0 1 1))
             script_oval g').
    exact E.
Defined.


(** The circle and the oval at the centre [(0, 0)] with the radii [1]. *)
Lemma circle_and_oval_have_65_points_witness :
  (exists ring,
      _create_circle 0 0 1 1 = Ok ring
      /\ List.length ring = 65%nat
      /\ nth_error ring 16
         = Some (0 + ((1 + 1) / 2) * cos ((2 * PI * 16) / 64),
                 0 + ((1 + 1) / 2) * sin ((2 * PI * 16) / 64)))
  /\ (exists ring g',
        _create_oval 0 0 1 1 script_oval = (Ok ring, g')
        /\ List.length ring = 65%nat).
Proof.
  destruct (@circle_and_oval_have_65_points R R_ops script script_source 0 0 1 1)
    as [(ring & Hr & Hl & Hn & _) Ho].
  split.
  - exists ring. split; [exact Hr|]. split; [exact Hl|].
    apply (Hn 16%Z). lia.
  - destruct (Ho script_oval) as (ring' & g' & _ & _ & Hr' & _ & Hl' & _).
    exists ring', g'. split; assumption.
Defined.

(** The batches of no polygon and of one polygon on [script_ngon]. *)
Lemma batch_has_count_features_numbered_from_1_witness :
  generate_mock_polygons 0 9435 9435 4 4 true true script_ngon
  = (Ok {| features := [] |}, script_ngon)
  /\ (exists fc g',
        generate_mock_polygons 1 9435 9435 4 4 true true script_ngon = (Ok fc, g')
        /\ List.length (features fc) = 1%nat
        /\ map (@id R) (features fc) = [1%Z]).
Proof.
  destruct (@batch_has_count_features_numbered_from_1 R R_ops script
              script_source 9435 9435 4 4 true true 0 script_ngon)
    as (H0 & _ & _).
  destruct (@batch_has_count_features_numbered_from_1 R R_ops script
              script_source 9435 9435 4 4 true true 1 script_ngon)
    as (_ & _ & H1).
  split; [apply H0; reflexivity|].
  eexists _, _. split; [apply run_script_ngon|].
  apply (H1 _ script_empty); [lia | apply run_script_ngon].
Defined.

(** The default sizes and shapes on an exhausted script: every candidate
    sits on the south-west corner and wraps. *)
Lemma exhaustion_after_100_candidates_fails_the_batch_witness :
  after_rejections 100 1 5000 script_empty = Some script_empty
  /\ generate_random_polygon 1 5000 4 6 true true script_empty
     = (Raise exhausted, script_empty)
  /\ generate_mock_polygons 3 1 5000 4 6 true true script_empty
     = (Raise exhausted, script_empty).
Proof.
  assert (Hrej : after_rejections 100 1 5000 script_empty = Some script_empty)
    by (apply rejections_empty_script; lra).
  destruct (@exhaustion_after_100_candidates_fails_the_batch R R_ops script
              script_source 1 5000 4 6 true true script_empty)
    as (_ & Hex & Hbatch).
  split; [exact Hrej|]. split; [exact (Hex _ Hrej)|].
  apply (Hbatch 3%Z 0%Z [] script_empty exhausted script_empty).
  - lia.
  - reflexivity.
  - exact (Hex _ Hrej).
Defined.

(** A negative count, and the exhausted batch of three. *)
Lemma batch_raises_only_from_generation_witness :
  generate_mock_polygons (-1) 1 5000 4 6 true true script_empty
  = (Ok {| features := [] |}, script_empty)
  /\ (exists j rs gj,
        (0 <= j < 3)%Z
        /\ polygons (Z.to_nat j) 1 5000 4 6 true true script_empty = (Ok rs, gj)
        /\ generate_random_polygon 1 5000 4 6 true true gj
           = (Raise exhausted, script_empty)).
Proof.
  destruct (@batch_raises_only_from_generation R R_ops script script_source
              1 5000 4 6 true true (-1) script_empty) as [Hneg _].
  destruct (@batch_raises_only_from_generation R R_ops script script_source
              1 5000 4 6 true true 3 script_empty) as [_ Hraise].
  split; [apply Hneg; lia|].
  apply Hraise.
  apply exhaustion_run_of_three.
Defined.

(** The batch of one polygon on [script_ngon], circles and ovals disabled. *)
Lemma ngons_only_when_circles_and_ovals_disabled_witness :
  exists fc g' f,
    generate_mock_polygons 1 9435 9435 4 4 false false script_ngon = (Ok fc, g')
    /\ In f (features fc)
    /\ (exists k, (4 <= k <= 4)%Z /\ shape f = (str k ++ "-gon")%string)
    /\ shape f <> "circle"%string
    /\ shape f <> "oval"%string.
Proof.
  eexists _, _, _. split; [apply run_script_ngon_only|].
  split; [left; reflexivity|].
  destruct (@ngons_only_when_circles_and_ovals_disabled R R_ops script
              script_source 9435 9435 4 4) as (_ & _ & _ & _ & Hbatch).
  apply (Hbatch 1%Z script_ngon script_empty _ _ run_script_ngon_only).
  left; reflexivity.
Defined.


(** C2, as stated, fails: a call with a negative count, a least size above
    the greatest size and vertex bounds below 3 raises nothing and returns
    the empty collection. *)
Lemma invalid_parameters_raise_nothing :
  generate_mock_polygons (-1) 5000 1 2 1 true true script_ngon
  = (Ok {| features := [] |}, script_ngon).
Proof. reflexivity. Qed.

(** * Further properties of the rasterisers and of the generator *)

Section Edges.

Context {F : Type} {FO : FloatOps F}.
Context {G : Type} {RS : RandomSource F G}.

Variables (min_size_km max_size_km : F).
Variables (min_vertices max_vertices : Z).
Variables (include_circles include_ovals : bool).


(** The exceptions of the parts of an attempt. *)
Lemma sample_candidate_raises (g g' : G) (e : exn) :
  sample_candidate min_size_km max_size_km g = (Raise e, g') ->
  e = ZeroDivisionError.
Proof.
  unfold sample_candidate, bind, random_uniform, lift, pydiv, ret.
  destruct (rng_random g) as [u1 g1].
  destruct (rng_random g1) as [u2 g2].
  destruct (rng_random g2) as [u3 g3].
  destruct (fis_zero _); [|discriminate].
  intros H. now injection H.
Qed.

Lemma rasterize_raises (c : @candidate F) (g g' : G) (e : exn) :
  rasterize min_vertices max_vertices include_circles include_ovals c g
  = (Raise e, g') ->
  e = IndexError.
Proof.
  unfold rasterize, bind.
  destruct (random_choice _ g) as [[ch|e0] g1] eqn:Ech.
  - destruct ch as [k| |].
    + unfold lift at 1.
      destruct (_create_ngon _ _ _ _ k) as [ring|e1] eqn:En; [discriminate|].
      intros H. apply pair_equal_spec in H. destruct H as [H _].
      injection H as <-.
      destruct (Z_lt_le_dec 0 k) as [Hk|Hk].
      * rewrite _create_ngon_ok in En by exact Hk. discriminate.
      * rewrite _create_ngon_raises in En by exact Hk. now injection En.
    + rewrite _create_circle_ok. unfold lift, ret. discriminate.
    + destruct (_create_oval_ok (center_lat c) (center_lon c) (lat_radius_deg c)
                  (lon_radius_deg c) g1) as (o & g2 & _ & _ & E).
      rewrite E. unfold ret. discriminate.
  - intros H. apply pair_equal_spec in H. destruct H as [H _].
    injection H as <-.
    unfold random_choice in Ech.
    destruct (shape_types _ _ _ _) as [|a l]; [now injection Ech|].
    destruct (rng_randbelow _ g) as [k g2].
    destruct (nth_error (a :: l) k); [discriminate | now injection Ech].
Qed.

(** The attempt loop with a candidate that passes after [j] rejections. *)
Lemma attempt_loop_pass (circles ovals : bool) (n j : nat) (g gj g1 : G)
    (c : @candidate F) :
  (j < n)%nat ->
  after_rejections j min_size_km max_size_km g = Some gj ->
  sample_candidate min_size_km max_size_km gj = (Ok c, g1) ->
  would_wrap c = false ->
  attempt_loop n min_size_km max_size_km min_vertices max_vertices
    circles ovals g
  = rasterize min_vertices max_vertices circles ovals c g1.
Proof.
  revert j g. induction n as [|n IH]; intros j g Hj Ha Hs Hw; [lia|].
  cbn [attempt_loop]. unfold bind.
  destruct j as [|j]; cbn [after_rejections] in Ha.
  - injection Ha as ->. now rewrite Hs, Hw.
  - destruct (sample_candidate min_size_km max_size_km g) as [[c0|e] g0];
      [|discriminate].
    destruct (would_wrap c0); [|discriminate].
    apply (IH j); auto. lia.
Qed.

(** X2. The exhaustion error says exactly that 100 candidates in a row were
    drawn and rejected: [generate_random_polygon] raises it if and only if
    that happened, whatever the shape parameters are. *)
Theorem exhausted_exactly_after_100_rejections (g g' : G) :
  generate_random_polygon min_size_km max_size_km min_vertices max_vertices
    include_circles include_ovals g = (Raise exhausted, g')
  <-> after_rejections 100 min_size_km max_size_km g = Some g'.
Proof.
  split.
  - unfold generate_random_polygon. intros H.
    destruct (attempt_loop_cases min_size_km max_size_km min_vertices
                max_vertices include_circles include_ovals max_attempts g)
      as [(j & gj & c & g1 & _ & _ & _ & _ & Hr)
         | [(j & gj & e & g1 & _ & _ & Hs & Hr) | (gn & Ha & Hr)]];
      rewrite Hr in H.
    + apply rasterize_raises in H. discriminate.
    + apply sample_candidate_raises in Hs. subst e.
      apply pair_equal_spec in H. destruct H as [H _]. discriminate.
    + apply pair_equal_spec in H. destruct H as [_ <-]. exact Ha.
  - intros H. unfold generate_random_polygon. now apply attempt_loop_exhausted.
Qed.

(** X3. With vertex bounds that list no n-gon ([max_vertices < min_vertices])
    and circles and ovals disabled, no call returns a polygon: the first
    candidate that passes the wrap check ends the call with the [IndexError]
    of [random.choice] on the empty shape list, and a batch of one polygon
    or more never returns a collection. *)
Theorem empty_shape_list_never_returns (g : G) :
  (max_vertices < min_vertices)%Z ->
  (forall r g',
      generate_random_polygon min_size_km max_size_km min_vertices max_vertices
        false false g <> (Ok r, g'))
  /\ (forall j gj c g1,
        (j < 100)%nat ->
        after_rejections j min_size_km max_size_km g = Some gj ->
        sample_candidate min_size_km max_size_km gj = (Ok c, g1) ->
        would_wrap c = false ->
        generate_random_polygon min_size_km max_size_km min_vertices
          max_vertices false false g = (Raise IndexError, g1))
  /\ (forall count fc g',
        (1 <= count)%Z ->
        generate_mock_polygons count min_size_km max_size_km min_vertices
          max_vertices false false g <> (Ok fc, g')).
Proof.
  intros Hv.
  assert (Hempty : shape_types min_vertices max_vertices false false = []).
  { rewrite shape_types_eq. unfold range2.
    replace (Z.to_nat (max_vertices + 1 - min_vertices)) with 0%nat by lia.
    reflexivity. }
  assert (Hras : forall c g1,
             rasterize min_vertices max_vertices false false c g1
             = (Raise IndexError, g1)).
  { intros c g1. unfold rasterize, bind, random_choice. now rewrite Hempty. }
  assert (Hno : forall g0 r g',
             generate_random_polygon min_size_km max_size_km min_vertices
               max_vertices false false g0 <> (Ok r, g')).
  { intros g0 r g' H. apply generate_random_polygon_inv in H.
    destruct H as (gj & c & g1 & _ & _ & H). rewrite Hras in H. discriminate. }
  split; [apply Hno|]. split.
  - intros j gj c g1 Hj Ha Hs Hw. unfold generate_random_polygon.
    rewrite (@attempt_loop_pass false false max_attempts j g gj g1 c) by auto.
    apply Hras.
  - intros count fc g' Hc H.
    rewrite generate_mock_polygons_polygons in H.
    destruct (Z.to_nat count) as [|n] eqn:En; [lia|].
    cbn [polygons] in H. unfold bind in H.
    destruct (generate_random_polygon _ _ _ _ _ _ g) as [[r|e] g1] eqn:E;
      [|discriminate].
    now apply Hno in E.
Qed.

(** With [min_vertices >= 1] and a shape list that is not empty, a candidate
    that passed the wrap check always becomes a polygon. *)
Lemma rasterize_returns (c : @candidate F) (g : G) :
  (1 <= min_vertices)%Z ->
  (min_vertices <= max_vertices)%Z \/ include_circles = true
  \/ include_ovals = true ->
  exists r g',
    rasterize min_vertices max_vertices include_circles include_ovals c g
    = (Ok r, g').
Proof.
  intros Hmin Hne.
  assert (Hl : shape_types min_vertices max_vertices include_circles
                 include_ovals <> []).
  { destruct Hne as [H | [-> | ->]].
    - intros E.
      assert (Hin : In (ngon min_vertices)
                      (shape_types min_vertices max_vertices include_circles
                         include_ovals))
        by (apply shape_types_ngon; lia).
      rewrite E in Hin. destruct Hin.
    - rewrite shape_types_eq. intros E.
      apply app_eq_nil in E. destruct E as [_ E]. discriminate.
    - rewrite shape_types_eq. intros E.
      apply app_eq_nil in E. destruct E as [_ E].
      apply app_eq_nil in E. destruct E as [_ E]. discriminate. }
  destruct (random_choice_ok g Hl) as (ch & g1 & Hc & Hin).
  unfold rasterize, bind. rewrite Hc.
  destruct ch as [k| |].
  - apply shape_types_ngon in Hin.
    rewrite _create_ngon_ok by lia. unfold lift, ret. eauto.
  - rewrite _create_circle_ok. unfold lift, ret. eauto.
  - destruct (_create_oval_ok (center_lat c) (center_lon c) (lat_radius_deg c)
                (lon_radius_deg c) g1) as (o & g2 & _ & _ & E).
    rewrite E. unfold ret. eauto.
Qed.

End Edges.

Section Collections.

Context {F : Type} {FO : FloatOps F}.
Context {G : Type} {RS : RandomSource F G}.

Variables (min_size_km max_size_km : F).
Variables (min_vertices max_vertices : Z).
Variables (include_circles include_ovals : bool).

(** X4. Every feature of a returned batch holds exactly one ring, which is
    closed, and its shape tells the ring: ["<k>-gon"] for a listed [k >= 1]
    with [k + 1] points, ["circle"] only when circles are enabled and
    ["oval"] only when ovals are enabled, both with 65 points. *)
Theorem every_feature_is_one_closed_ring (count : Z) (g g' : G)
    (fc : @FeatureCollection F) (f : @Feature F) :
  generate_mock_polygons count min_size_km max_size_km min_vertices
    max_vertices include_circles include_ovals g = (Ok fc, g') ->
  In f (features fc) ->
  exists ring,
    coordinates f = [ring]
    /\ closed_ring ring
    /\ ((exists k,
           (min_vertices <= k <= max_vertices)%Z /\ (1 <= k)%Z
           /\ shape f = (str k ++ "-gon")%string
           /\ List.length ring = (Z.to_nat k + 1)%nat)
        \/ (include_circles = true
            /\ shape f = "circle"%string /\ List.length ring = 65%nat)
        \/ (include_ovals = true
            /\ shape f = "oval"%string /\ List.length ring = 65%nat)).
Proof.
  intros H Hin. rewrite generate_mock_polygons_polygons in H.
  destruct (polygons _ _ _ _ _ _ _ g) as [[rs|e] g1] eqn:Hp; [|discriminate].
  apply pair_equal_spec in H. destruct H as [H _]. apply Ok_inj in H.
  subst fc. cbn [features] in Hin. apply number_features_In in Hin.
  eapply polygons_In in Hin; [|exact Hp]. destruct Hin as (ga & gb & Hg).
  apply generate_random_polygon_inv in Hg.
  destruct Hg as (gj & c & gc & _ & _ & Hr).
  apply rasterize_inv in Hr.
  destruct Hr as (ring & Hrings
                  & [(k & Hk & Hn & Hs) | [(Hc & Hn & Hs) | (Ho & Hn & Hs)]]).
  - exists ring. split; [exact Hrings|].
    destruct (Z_lt_le_dec 0 k) as [Hk0|Hk0].
    + rewrite _create_ngon_ok in Hn by exact Hk0. apply Ok_inj in Hn.
      subst ring. split; [now apply loop_ring_closed|].
      left. exists k. repeat split; try lia; auto.
      apply loop_ring_length.
    + rewrite _create_ngon_raises in Hn by exact Hk0. discriminate.
  - exists ring. split; [exact Hrings|].
    rewrite _create_circle_ok in Hn. apply Ok_inj in Hn. subst ring.
    split; [now apply loop_ring_closed|].
    right; left. repeat split; auto.
  - exists ring. split; [exact Hrings|].
    destruct Hn as (g1' & g2' & Hn). apply _create_oval_inv in Hn.
    destruct Hn as (o & _ & ->).
    split; [now apply loop_ring_closed|].
    right; right. repeat split; auto.
Qed.

Lemma polygons_app (n m : nat) (g : G) :
  polygons (n + m) min_size_km max_size_km min_vertices max_vertices
    include_circles include_ovals g
  = match polygons n min_size_km max_size_km min_vertices max_vertices
            include_circles include_ovals g with
    | (Ok rs1, g1) =>
        match polygons m min_size_km max_size_km min_vertices max_vertices
                include_circles include_ovals g1 with
        | (Ok rs2, g2) => (Ok (rs1 ++ rs2), g2)
        | (Raise e, g2) => (Raise e, g2)
        end
    | (Raise e, g1) => (Raise e, g1)
    end.
Proof.
  revert g. induction n as [|n IH]; intros g.
  - cbn [Nat.add polygons]. unfold ret.
    destruct (polygons m _ _ _ _ _ _ g) as [[rs|e] g2]; reflexivity.
  - cbn [Nat.add polygons]. unfold bind, ret.
    destruct (generate_random_polygon _ _ _ _ _ _ g) as [[r|e] g1]; [|reflexivity].
    rewrite IH.
    destruct (polygons n _ _ _ _ _ _ g1) as [[rs1|e] g2]; [|reflexivity].
    destruct (polygons m _ _ _ _ _ _ g2) as [[rs2|e] g3]; reflexivity.
Qed.

Lemma number_features_app (first : Z)
    (rs1 rs2 : list (list (list (@point F)) * string)) :
  number_features first (rs1 ++ rs2)
  = number_features first rs1
    ++ number_features (first + Z.of_nat (List.length rs1)) rs2.
Proof.
  revert first. induction rs1 as [|r rs1 IH]; intros first; simpl.
  - now rewrite Z.add_0_r.
  - rewrite IH. do 3 f_equal. lia.
Qed.

Lemma number_features_shift (first d : Z)
    (rs : list (list (list (@point F)) * string)) :
  number_features (first + d) rs
  = map (fun f : @Feature F => {| coordinates := coordinates f; id := (id f + d)%Z;
                     shape := shape f |})
      (number_features first rs).
Proof.
  revert first. induction rs as [|r rs IH]; intros first; simpl; [reflexivity|].
  f_equal. replace (first + d + 1)%Z with (first + 1 + d)%Z by lia. apply IH.
Qed.


End Collections.

(** * Further properties over the reals *)

(** X6. A candidate drawn from draws of the unit interval has its centre in
    [-85, 85) x [-180, 180), a size between the two size parameters
    (whichever is the larger), and a longitude radius that is the latitude
    radius divided by the cosine of the centre latitude: with sizes that are
    not negative, the longitude radius is never the smaller one. *)
Theorem candidate_ranges (G : Type) (RS : RandomSource R G)
    (min_size_km max_size_km : R) (g g' : G) (c : @candidate R) :
  unit_interval_source G ->
  sample_candidate min_size_km max_size_km g = (Ok c, g') ->
  (-85 <= center_lat c < 85)
  /\ (-180 <= center_lon c < 180)
  /\ (Rmin min_size_km max_size_km <= lat_radius_deg c * 111
      <= Rmax min_size_km max_size_km)
  /\ lon_radius_deg c * cos (center_lat c * (PI / 180)) = lat_radius_deg c
  /\ (0 <= min_size_km -> 0 <= max_size_km ->
      0 <= lat_radius_deg c <= lon_radius_deg c).
Proof.
  intros Hunit H.
  apply (sample_candidate_inv Hunit) in H.
  destruct H as (u1 & u2 & u3 & (H1 & H2 & H3) & Elat & Elon & Erlat & Erlon).
  assert (Hc : 0 < cos (center_lat c * (PI / 180)))
    by (apply cos_radians_pos; lra).
  pose proof (COS_bound (center_lat c * (PI / 180))) as [_ Hc1].
  set (k := cos (center_lat c * (PI / 180))) in *.
  set (size := min_size_km + (max_size_km - min_size_km) * u3) in *.
  assert (Hrlat : lat_radius_deg c * 111 = size) by (rewrite Erlat; field).
  assert (Hrlon : lon_radius_deg c * k = lat_radius_deg c)
    by (rewrite Erlon, Erlat; field; lra).
  split; [lra|]. split; [lra|]. split; [|split].
  - rewrite Hrlat. unfold Rmin, Rmax, size.
    destruct (Rle_dec min_size_km max_size_km); split; nra.
  - exact Hrlon.
  - intros Hmin Hmax.
    assert (Hsize : 0 <= size) by (unfold size; nra).
    assert (Hlat : 0 <= lat_radius_deg c) by lra.
    assert (Hlon : 0 <= lon_radius_deg c).
    { destruct (Rle_dec 0 (lon_radius_deg c)) as [Hle|Hgt]; [exact Hle|].
      exfalso. nra. }
    split; [exact Hlat | nra].
Qed.

(** X7. The vertices lie on the curve of their shape: those of a circle at
    the distance of the mean radius from the centre, those of an n-gon on the
    ellipse of the two radii, those of an oval on the ellipse of its drawn
    orientation ([1.5 lon_radius] by [0.7 lat_radius], or [0.7 lon_radius]
    by [1.5 lat_radius]). *)
Theorem vertices_lie_on_their_curve (G : Type) (RS : RandomSource R G)
    (center_lat center_lon lat_radius lon_radius : R) :
  (forall ring p,
      _create_circle center_lat center_lon lat_radius lon_radius = Ok ring ->
      In p ring ->
      (lon p - center_lon) * (lon p - center_lon)
      + (lat p - center_lat) * (lat p - center_lat)
      = (lat_radius + lon_radius) / 2 * ((lat_radius + lon_radius) / 2))
  /\ (forall sides ring p,
        _create_ngon center_lat center_lon lat_radius lon_radius sides = Ok ring ->
        In p ring ->
        lat_radius * lat_radius * ((lon p - center_lon) * (lon p - center_lon))
        + lon_radius * lon_radius * ((lat p - center_lat) * (lat p - center_lat))
        = lat_radius * lat_radius * (lon_radius * lon_radius))
  /\ (forall (g g' : G) ring,
        _create_oval center_lat center_lon lat_radius lon_radius g
        = (Ok ring, g') ->
        exists a b,
          ((a = lon_radius * (15 / 10) /\ b = lat_radius * (7 / 10))
           \/ (a = lon_radius * (7 / 10) /\ b = lat_radius * (15 / 10)))
          /\ forall p,
               In p ring ->
               b * b * ((lon p - center_lon) * (lon p - center_lon))
               + a * a * ((lat p - center_lat) * (lat p - center_lat))
               = a * a * (b * b)).
Proof.
  assert (Hcurve : forall a b t,
             b * b * ((center_lon + a * cos t - center_lon)
                      * (center_lon + a * cos t - center_lon))
             + a * a * ((center_lat + b * sin t - center_lat)
                        * (center_lat + b * sin t - center_lat))
             = a * a * (b * b)).
  { intros a b t. pose proof (sin2_cos2 t) as H. unfold Rsqr in H.
    transitivity (a * a * (b * b) * (sin t * sin t + cos t * cos t));
      [ring | rewrite H; ring]. }
  split; [|split].
  - intros ring p Hr Hp. rewrite _create_circle_ok in Hr. apply Ok_inj in Hr.
    subst ring. apply loop_ring_In in Hp. destruct Hp as (i & ->).
    unfold circle_point, lon, lat. cbn [fst snd]. real_ops.
    set (avg := (lat_radius + lon_radius) / 2).
    set (t := 2 * PI * IZR i / IZR num_points).
    pose proof (sin2_cos2 t) as H. unfold Rsqr in H.
    transitivity (avg * avg * (sin t * sin t + cos t * cos t));
      [ring | rewrite H; ring].
  - intros sides ring p Hr Hp.
    destruct (Z_lt_le_dec 0 sides) as [Hs|Hs].
    + rewrite _create_ngon_ok in Hr by exact Hs. apply Ok_inj in Hr. subst ring.
      apply loop_ring_In in Hp. destruct Hp as (i & ->).
      unfold ngon_point, lon, lat. cbn [fst snd]. real_ops.
      rewrite (Hcurve lon_radius lat_radius). ring.
    + rewrite _create_ngon_raises in Hr by exact Hs. discriminate.
  - intros g g' ring Hr. apply _create_oval_inv in Hr.
    destruct Hr as (o & [-> | ->] & ->).
    + exists (lon_radius * (15 / 10)), (lat_radius * (7 / 10)).
      split; [left; split; reflexivity|].
      intros p Hp. apply loop_ring_In in Hp. destruct Hp as (i & ->).
      unfold oval_point, lon, lat. cbn [fst snd Z.eqb]. real_ops.
      apply Hcurve.
    + exists (lon_radius * (7 / 10)), (lat_radius * (15 / 10)).
      split; [right; split; reflexivity|].
      intros p Hp. apply loop_ring_In in Hp. destruct Hp as (i & ->).
      unfold oval_point, lon, lat. cbn [fst snd Z.eqb]. real_ops.
      apply Hcurve.
Qed.

(** X8. For radii that are not negative the wrap check is monotone: a centre
    that passes with two radii passes with any smaller radii, and it lies
    inside the bounds itself. *)
Theorem wrap_check_is_monotone
    (center_lat center_lon lat_radius lon_radius lat_radius' lon_radius' : R) :
  0 <= lat_radius' <= lat_radius ->
  0 <= lon_radius' <= lon_radius ->
  _would_wrap center_lat center_lon lat_radius lon_radius = false ->
  _would_wrap center_lat center_lon lat_radius' lon_radius' = false
  /\ -85 <= center_lat <= 85
  /\ -180 <= center_lon <= 180.
Proof.
  intros Hlat Hlon Hw. apply _would_wrap_false in Hw.
  split; [apply _would_wrap_false|]; lra.
Qed.

Section RealShapes.

Context {G : Type} {RS : RandomSource R G}.

Hypothesis unit_draws : unit_interval_source G.

Lemma candidate_radii_ordered (min_size_km max_size_km : R) (g g' : G)
    (c : @candidate R) :
  0 <= min_size_km -> 0 <= max_size_km ->
  sample_candidate min_size_km max_size_km g = (Ok c, g') ->
  0 <= lat_radius_deg c <= lon_radius_deg c.
Proof.
  intros Hmin Hmax H.
  destruct (candidate_radii_nonneg unit_draws _ Hmin Hmax H) as [Hlat Hlon].
  apply (sample_candidate_inv unit_draws) in H.
  destruct H as (u1 & u2 & u3 & (H1 & H2 & H3) & Elat & Elon & Erlat & Erlon).
  assert (Hc : 0 < cos (center_lat c * (PI / 180)))
    by (apply cos_radians_pos; lra).
  pose proof (COS_bound (center_lat c * (PI / 180))) as [_ Hc1].
  set (k := cos (center_lat c * (PI / 180))) in *.
  assert (Hrlon : lon_radius_deg c * k = lat_radius_deg c)
    by (rewrite Erlon, Erlat; field; lra).
  split; [exact Hlat | nra].
Qed.

(** Every candidate of sizes above 9435 km is rejected: its latitude radius
    is above 85 degrees. *)
Lemma large_candidates_wrap (min_size_km max_size_km : R) (g g' : G)
    (c : @candidate R) :
  9435 < min_size_km -> 9435 < max_size_km ->
  sample_candidate min_size_km max_size_km g = (Ok c, g') ->
  would_wrap c = true.
Proof.
  intros Hmin Hmax H.
  apply (sample_candidate_inv unit_draws) in H.
  destruct H as (u1 & u2 & u3 & (H1 & H2 & H3) & Elat & Elon & Erlat & Erlon).
  destruct (would_wrap c) eqn:Hw; [reflexivity|].
  exfalso. unfold would_wrap in Hw. apply _would_wrap_false in Hw.
  assert (Hsize : 9435 < min_size_km + (max_size_km - min_size_km) * u3) by nra.
  rewrite Erlat in Hw. lra.
Qed.

Lemma large_sizes_reject (n : nat) (min_size_km max_size_km : R) (g : G) :
  9435 < min_size_km -> 9435 < max_size_km ->
  exists gn, after_rejections n min_size_km max_size_km g = Some gn.
Proof.
  intros Hmin Hmax. revert g. induction n as [|n IH]; intros g.
  - exists g. reflexivity.
  - cbn [after_rejections].
    destruct (sample_candidate_returns unit_draws min_size_km max_size_km g)
      as (c & g1 & Hs).
    rewrite Hs.
    assert (Hw : would_wrap c = true)
      by exact (@large_candidates_wrap min_size_km max_size_km g g1 c Hmin Hmax Hs).
    rewrite Hw. apply IH.
Qed.

(** X9. A circle never crosses the dateline bound, and an oval crosses at
    most one of the two bounds: in a returned batch of sizes that are not
    negative, every vertex of a circle has its longitude in [-180, 180], and
    an oval has all its latitudes in [-85, 85] (east-west oval) or all its
    longitudes in [-180, 180] (north-south oval). *)
Theorem circles_keep_the_dateline_and_ovals_one_bound
    (count : Z) (min_size_km max_size_km : R) (min_vertices max_vertices : Z)
    (include_circles include_ovals : bool) (g g' : G)
    (fc : @FeatureCollection R) (f : @Feature R) :
  0 <= min_size_km -> 0 <= max_size_km ->
  generate_mock_polygons count min_size_km max_size_km min_vertices
    max_vertices include_circles include_ovals g = (Ok fc, g') ->
  In f (features fc) ->
  (shape f = "circle"%string ->
   all_vertices (fun p => -180 <= lon p <= 180) f)
  /\ (shape f = "oval"%string ->
      all_vertices (fun p => -85 <= lat p <= 85) f
      \/ all_vertices (fun p => -180 <= lon p <= 180) f).
Proof.
  intros Hmin Hmax H Hin.
  rewrite generate_mock_polygons_polygons in H.
  destruct (polygons _ _ _ _ _ _ _ g) as [[rs|e] g1] eqn:Hp; [|discriminate].
  apply pair_equal_spec in H. destruct H as [H _]. apply Ok_inj in H.
  subst fc. cbn [features] in Hin. apply number_features_In in Hin.
  eapply polygons_In in Hin; [|exact Hp]. destruct Hin as (ga & gb & Hg).
  apply generate_random_polygon_inv in Hg.
  destruct Hg as (gj & c & gc & Hs & Hw & Hr).
  destruct (candidate_radii_ordered _ Hmin Hmax Hs) as [Hlat Hlon].
  unfold would_wrap in Hw. apply _would_wrap_false in Hw.
  destruct Hw as (W1 & W2 & W3 & W4).
  apply rasterize_inv in Hr.
  destruct Hr as (ring & Hrings
                  & [(k & _ & _ & E) | [(_ & Hn & E) | (_ & Hn & E)]]).
  - split; intros Hshape; rewrite E in Hshape; exfalso.
    + now apply gon_not_circle in Hshape.
    + now apply gon_not_oval in Hshape.
  - split; intros Hshape; [|rewrite E in Hshape; discriminate].
    rewrite _create_circle_ok in Hn. apply Ok_inj in Hn. subst ring.
    intros ring' p Hring Hpin. rewrite Hrings in Hring.
    destruct Hring as [<- | []].
    apply loop_ring_In in Hpin. destruct Hpin as (i & ->).
    unfold circle_point, lon. cbn [fst]. real_ops.
    match goal with |- _ <= _ + ?r * cos ?t <= _ =>
      pose proof (COS_bound t) as [C1 C2]; set (x := cos t) in *
    end.
    split; nra.
  - split; intros Hshape; [rewrite E in Hshape; discriminate|].
    destruct Hn as (g1' & g2' & Hn). apply _create_oval_inv in Hn.
    destruct Hn as (o & [-> | ->] & ->).
    + left. intros ring' p Hring Hpin. rewrite Hrings in Hring.
      destruct Hring as [<- | []].
      apply loop_ring_In in Hpin. destruct Hpin as (i & ->).
      unfold oval_point, lat. cbn [snd Z.eqb]. real_ops.
      match goal with |- _ <= _ + ?r * sin ?t <= _ =>
        pose proof (SIN_bound t) as [C1 C2]; set (x := sin t) in *
      end.
      split; nra.
    + right. intros ring' p Hring Hpin. rewrite Hrings in Hring.
      destruct Hring as [<- | []].
      apply loop_ring_In in Hpin. destruct Hpin as (i & ->).
      unfold oval_point, lon. cbn [fst Z.eqb]. real_ops.
      match goal with |- _ <= _ + ?r * cos ?t <= _ =>
        pose proof (COS_bound t) as [C1 C2]; set (x := cos t) in *
      end.
      split; nra.
Qed.

(** X10. Sizes above 9435 km (a latitude radius above 85 degrees) leave no
    candidate that passes: every call of [generate_random_polygon] raises the
    exhaustion error, and so does every batch of one polygon or more. *)
Theorem sizes_above_9435_km_always_exhaust
    (min_size_km max_size_km : R) (min_vertices max_vertices : Z)
    (include_circles include_ovals : bool) (g : G) :
  9435 < min_size_km -> 9435 < max_size_km ->
  exists g',
    generate_random_polygon min_size_km max_size_km min_vertices max_vertices
      include_circles include_ovals g = (Raise exhausted, g')
    /\ forall count,
         (1 <= count)%Z ->
         generate_mock_polygons count min_size_km max_size_km min_vertices
           max_vertices include_circles include_ovals g
         = (Raise exhausted, g').
Proof.
  intros Hmin Hmax.
  destruct (@large_sizes_reject max_attempts min_size_km max_size_km g Hmin Hmax)
    as (g' & Ha).
  assert (Hg : generate_random_polygon min_size_km max_size_km min_vertices
                 max_vertices include_circles include_ovals g
               = (Raise exhausted, g'))
    by (unfold generate_random_polygon; now apply attempt_loop_exhausted).
  exists g'. split; [exact Hg|].
  intros count Hc. rewrite generate_mock_polygons_polygons.
  rewrite (@polygons_raise R R_ops G RS min_size_km max_size_km min_vertices
             max_vertices include_circles include_ovals 0 (Z.to_nat count)
             g g g' [] exhausted); auto.
  lia.
Qed.

End RealShapes.


(** X12. A size of zero is no error: with two zero radii every point of an
    n-gon, of a circle and of an oval is the centre itself. *)
Theorem zero_radii_give_a_ring_of_centres (G : Type) (RS : RandomSource R G)
    (center_lat center_lon : R) :
  (forall sides ring p,
      _create_ngon center_lat center_lon 0 0 sides = Ok ring ->
      In p ring -> p = (center_lon, center_lat))
  /\ (forall ring p,
        _create_circle center_lat center_lon 0 0 = Ok ring ->
        In p ring -> p = (center_lon, center_lat))
  /\ (forall (g g' : G) ring p,
        _create_oval center_lat center_lon 0 0 g = (Ok ring, g') ->
        In p ring -> p = (center_lon, center_lat)).
Proof.
  split; [|split].
  - intros sides ring p Hr Hp.
    destruct (Z_lt_le_dec 0 sides) as [Hs|Hs].
    + rewrite _create_ngon_ok in Hr by exact Hs. apply Ok_inj in Hr. subst ring.
      apply loop_ring_In in Hp. destruct Hp as (i & ->).
      unfold ngon_point. real_ops. f_equal; ring.
    + rewrite _create_ngon_raises in Hr by exact Hs. discriminate.
  - intros ring p Hr Hp. rewrite _create_circle_ok in Hr. apply Ok_inj in Hr.
    subst ring. apply loop_ring_In in Hp. destruct Hp as (i & ->).
    unfold circle_point. real_ops. f_equal; field.
  - intros g g' ring p Hr Hp. apply _create_oval_inv in Hr.
    destruct Hr as (o & [-> | ->] & ->);
      apply loop_ring_In in Hp; destruct Hp as (i & ->);
      unfold oval_point; cbn [Z.eqb]; real_ops; f_equal; ring.
Qed.


(** The default sizes on an exhausted script. *)
Lemma exhausted_exactly_after_100_rejections_witness :
  after_rejections 100 1 5000 script_empty = Some script_empty
  /\ generate_random_polygon 1 5000 4 6 true true script_empty
     = (Raise exhausted, script_empty).
Proof.
  assert (Hrej : after_rejections 100 1 5000 script_empty = Some script_empty)
    by (apply rejections_empty_script; lra).
  split; [exact Hrej|].
  apply (proj2 (@exhausted_exactly_after_100_rejections R R_ops script
                  script_source 1 5000 4 6 true true script_empty script_empty)).
  exact Hrej.
Defined.

(** The vertex bounds 5 .. 4 on [script_ngon]: the first candidate passes
    and the call ends with the [IndexError]. *)
Lemma empty_shape_list_never_returns_witness :
  (4 < 5)%Z
  /\ generate_random_polygon 9435 9435 5 4 false false script_ngon
     = (Raise IndexError, {| numerators := []; indices := [0%nat] |}).
Proof.
  assert (Hv : (4 < 5)%Z) by lia.
  split; [exact Hv|].
  apply (proj1 (proj2 (@empty_shape_list_never_returns R R_ops script
                         script_source 9435 9435 5 4 script_ngon Hv))
           0%nat script_ngon
           {| center_lat := 0; center_lon := 0;
              lat_radius_deg := 9435 / 111; lon_radius_deg := 9435 / 111 |}).
  - lia.
  - reflexivity.
  - apply sample_candidate_centre.
  - unfold would_wrap. apply _would_wrap_false.
    cbn [center_lat center_lon lat_radius_deg lon_radius_deg]. lra.
Defined.

(** The feature of the run on [script_ngon]. *)
Lemma every_feature_is_one_closed_ring_witness :
  exists fc g' f ring,
    generate_mock_polygons 1 9435 9435 4 4 true true script_ngon = (Ok fc, g')
    /\ In f (features fc)
    /\ coordinates f = [ring]
    /\ closed_ring ring.
Proof.
  assert (Hin : In {| coordinates :=
                        [map (ngon_point 0 0 (9435 / 111) (9435 / 111) 4) (range 4)
                         ++ [ngon_point 0 0 (9435 / 111) (9435 / 111) 4 0]];
                      id := 1%Z;
                      shape := "4-gon" |}
                  (features
                     {| features :=
                          [{| coordinates :=
                                [map (ngon_point 0 0 (9435 / 111) (9435 / 111) 4)
                                   (range 4)
                                 ++ [ngon_point 0 0 (9435 / 111) (9435 / 111) 4 0]];
                              id := 1%Z;
                              shape := "4-gon" |}] |}))
    by (left; reflexivity).
  destruct (@every_feature_is_one_closed_ring R R_ops script script_source
              9435 9435 4 4 true true 1 script_ngon script_empty _ _
              run_script_ngon Hin)
    as (ring & Hc & Hcl & _).
  eexists _, _, _, ring. split; [apply run_script_ngon|].
  split; [exact Hin|]. split; assumption.
Defined.


(** The candidate of three draws [1/2] with the sizes 9435 km. *)
Lemma candidate_ranges_witness :
  unit_interval_source script
  /\ (0 <= 9435 / 111 <= 9435 / 111).
Proof.
  split; [exact script_unit_interval|].
  refine (proj2 (proj2 (proj2 (proj2
            (@candidate_ranges script script_source 9435 9435
               {| numerators := [half; half; half]; indices := [] |}
               {| numerators := []; indices := [] |}
               {| center_lat := 0; center_lon := 0;
                  lat_radius_deg := 9435 / 111; lon_radius_deg := 9435 / 111 |}
               script_unit_interval
               (sample_candidate_centre 9435 [] []))))) _ _); lra.
Defined.

(** The first point of the circle at the centre [(0, 0)] with the radii [1]. *)
Lemma vertices_lie_on_their_curve_witness :
  (lon (circle_point 0 0 1 1 0) - 0) * (lon (circle_point 0 0 1 1 0) - 0)
  + (lat (circle_point 0 0 1 1 0) - 0) * (lat (circle_point 0 0 1 1 0) - 0)
  = (1 + 1) / 2 * ((1 + 1) / 2).
Proof.
  apply (proj1 (@vertices_lie_on_their_curve script script_source 0 0 1 1)
           (map (circle_point 0 0 1 1) (range num_points)
            ++ [circle_point 0 0 1 1 0])).
  - apply _create_circle_ok.
  - apply in_or_app. right. left. reflexivity.
Defined.

(** The radii 80 and 40 at the centre [(0, 0)]. *)
Lemma wrap_check_is_monotone_witness :
  _would_wrap 0 0 80 80 = false /\ _would_wrap 0 0 40 40 = false.
Proof.
  assert (H : _would_wrap 0 0 80 80 = false) by (apply _would_wrap_false; lra).
  split; [exact H|].
  apply (@wrap_check_is_monotone 0 0 80 80 40 40); [lra | lra | exact H].
Defined.

(** The oval of the run on [script_oval]. *)
Lemma circles_keep_the_dateline_and_ovals_one_bound_witness :
  unit_interval_source script
  /\ exists fc g' f,
       generate_mock_polygons 1 8880 8880 4 4 true true script_oval = (Ok fc, g')
       /\ In f (features fc)
       /\ shape f = "oval"%string
       /\ (all_vertices (fun p => -85 <= lat p <= 85) f
           \/ all_vertices (fun p => -180 <= lon p <= 180) f).
Proof.
  split; [exact script_unit_interval|].
  assert (H8 : 0 <= 8880) by lra.
  eexists _, _, _. split; [apply run_script_oval|].
  split; [left; reflexivity|]. split; [reflexivity|].
  apply (proj2 (@circles_keep_the_dateline_and_ovals_one_bound script
                  script_source script_unit_interval 1 8880 8880 4 4 true true
                  script_oval script_empty _ _ H8 H8 run_script_oval
                  (or_introl eq_refl))).
  reflexivity.
Defined.

(** The sizes 10000 km on an exhausted script. *)
Lemma sizes_above_9435_km_always_exhaust_witness :
  unit_interval_source script
  /\ exists g',
       generate_random_polygon 10000 10000 4 6 true true script_empty
       = (Raise exhausted, g').
Proof.
  split; [exact script_unit_interval|].
  assert (H : 9435 < 10000) by lra.
  destruct (@sizes_above_9435_km_always_exhaust script script_source
              script_unit_interval 10000 10000 4 6 true true script_empty H H)
    as (g' & Hg & _).
  exists g'. exact Hg.
Defined.


(** The n-gon of zero radii at the centre [(0, 0)]. *)
Lemma zero_radii_give_a_ring_of_centres_witness :
  ngon_point 0 0 0 0 4 1 = (0, 0).
Proof.
  apply (proj1 (@zero_radii_give_a_ring_of_centres script script_source 0 0)
           4%Z
           (map (ngon_point 0 0 0 0 4) (range 4) ++ [ngon_point 0 0 0 0 4 0])).
  - apply _create_ngon_ok. lia.
  - apply in_or_app. left. apply in_map_iff. exists 1%Z.
    split; [reflexivity|]. right; left; reflexivity.
Defined.
